(** * Legion: the Ollama provider adapter ([legion/providers/ollama.py])

    A shallow embedding of [OllamaProvider]: the translation of canonical
    messages to Ollama's wire format, the three synchronous completion
    operations, the asynchronous plain chat completion and the extraction of
    content, usage and tool calls from the raw backend response.

    Python values that reach the adapter untyped ([response: Any]) are
    modelled by the type [pyval]; exceptions by the error monad [result]. *)

From Stdlib Require Import Ascii.
From stdpp Require Import base option list strings gmap pretty.

Local Set Warnings "-register-all".

(** ** Python values *)

(** A Python [str] is a Rocq [string]; the character of number [n] stands for
    the code point [n], so the model covers the code points below 256.
    An object is its class name with its instance attributes, in the order
    in which they were set. *)
Inductive pyval : Type :=
| PyNone
| PyBool (b : bool)
| PyInt (z : Z)
| PyStr (s : string)
| PyList (xs : list pyval)
| PyDict (items : list (string * pyval))
| PyObj (cls : string) (attrs : list (string * pyval)).

(** [type(v).__name__] *)
Definition type_name (v : pyval) : string :=
  match v with
  | PyNone => "NoneType"
  | PyBool _ => "bool"
  | PyInt _ => "int"
  | PyStr _ => "str"
  | PyList _ => "list"
  | PyDict _ => "dict"
  | PyObj cls _ => cls
  end.

(** [bool(v)]: the truth value used by [if], [or] and the conditional
    expression.  An object without [__bool__] and [__len__] is true. *)
Definition truthy (v : pyval) : bool :=
  match v with
  | PyNone => false
  | PyBool b => b
  | PyInt z => negb (Z.eqb z 0)
  | PyStr s => negb (String.eqb s "")
  | PyList xs => match xs with [] => false | _ => true end
  | PyDict items => match items with [] => false | _ => true end
  | PyObj _ _ => true
  end.

(** First binding of a key in an association list. *)
Fixpoint assoc (key : string) (items : list (string * pyval)) : option pyval :=
  match items with
  | [] => None
  | (k, v) :: rest => if String.eqb k key then Some v else assoc key rest
  end.

(** ** Exceptions *)

(** Only instances of [Exception] are modelled: these are what
    [except Exception] catches. *)
Inductive exc_class : Type :=
| ProviderError
| AttributeError
| TypeError
| OtherError (cls : string).

(** [exn_msg e] is [str(e)]. *)
Record exn : Type := Exn { exn_class : exc_class; exn_msg : string }.

Inductive result (A : Type) : Type :=
| Ok (a : A)
| Raise (e : exn).
Arguments Ok {A} a.
Arguments Raise {A} e.

Global Instance result_ret : MRet result := λ A a, Ok a.
Global Instance result_bind : MBind result := λ A B k r,
  match r with
  | Ok a => k a
  | Raise e => Raise e
  end.

(** [try: body except Exception as e: raise ProviderError(f"{prefix}{str(e)}")].
    [ProviderError] comes from [legion/errors.py]: an [Exception] subclass
    whose [str] is the message it was built with. *)
Definition reraise_as_provider_error {A : Type} (prefix : string) (body : result A)
  : result A :=
  match body with
  | Ok a => Ok a
  | Raise e => Raise (Exn ProviderError (prefix +:+ exn_msg e))
  end.

(** ** Attribute access *)

(** None of the built-in types carries an attribute of a name the adapter
    asks for ([message], [content], [tool_calls], [id], [function], ...), so
    only objects have attributes here. *)
Definition attr_of (o : pyval) (attr : string) : option pyval :=
  match o with
  | PyObj _ attrs => assoc attr attrs
  | _ => None
  end.

(** [hasattr(o, attr)] *)
Definition hasattr (o : pyval) (attr : string) : bool :=
  match attr_of o attr with Some _ => true | None => false end.

(** [getattr(o, attr, default)] *)
Definition getattr_default (o : pyval) (attr : string) (default : pyval) : pyval :=
  match attr_of o attr with Some v => v | None => default end.

Definition no_attribute (o : pyval) (attr : string) : exn :=
  Exn AttributeError
    ("'" +:+ type_name o +:+ "' object has no attribute '" +:+ attr +:+ "'").

(** [o.attr] *)
Definition getattr (o : pyval) (attr : string) : result pyval :=
  match attr_of o attr with
  | Some v => Ok v
  | None => Raise (no_attribute o attr)
  end.

(** The values a [for] loop (or a comprehension) draws from [v]: the
    elements of a list, the keys of a dictionary, the characters of a
    string.  [None], numbers and objects (taken to define no [__iter__])
    are not iterable. *)
Definition iterate (v : pyval) : result (list pyval) :=
  match v with
  | PyList xs => Ok xs
  | PyDict items => Ok (map (λ kv, PyStr kv.1) items)
  | PyStr s => Ok (map (λ c, PyStr (String c "")) (String.list_ascii_of_string s))
  | _ => Raise (Exn TypeError ("'" +:+ type_name v +:+ "' object is not iterable"))
  end.

(** ** [str.strip()] *)

(** [str.isspace] of one character, for the code points below 256:
    tab to carriage return, the four separators 0x1c to 0x1f, the space,
    NEL (0x85) and the no-break space (0xa0). *)
Definition is_space (c : ascii) : bool :=
  let n := nat_of_ascii c in
  ((9 <=? n) && (n <=? 13)) || ((28 <=? n) && (n <=? 32))
  || (n =? 133) || (n =? 160).

Fixpoint lstrip (s : string) : string :=
  match s with
  | "" => ""
  | String c rest => if is_space c then lstrip rest else s
  end.

Fixpoint rstrip (s : string) : string :=
  match s with
  | "" => ""
  | String c rest =>
      match rstrip rest with
      | "" => if is_space c then "" else String c ""
      | kept => String c kept
      end
  end.

(** [s.strip()]: the slice between the first and the last character that is
    not white space. *)
Definition strip (s : string) : string := rstrip (lstrip s).

(** [v.strip()] for an arbitrary value: only [str] has the method. An
    instance attribute of that name holds data, which cannot be called. *)
Definition call_strip (v : pyval) : result string :=
  match v with
  | PyStr s => Ok (strip s)
  | _ =>
      match attr_of v "strip" with
      | Some f => Raise (Exn TypeError ("'" +:+ type_name f +:+ "' object is not callable"))
      | None => Raise (no_attribute v "strip")
      end
  end.

(** ** The canonical message model ([legion/interface/schemas.py]) *)

(** Modelled from the spec: the [Role] enumeration of
    [legion/interface/schemas.py], "role ∈ {system, user, assistant, tool}". *)
Inductive Role : Type := SYSTEM | USER | ASSISTANT | TOOL.

Global Instance Role_eq_dec : EqDecision Role.
Proof. solve_decision. Defined.

(** Modelled from the spec: [Message], "{role, content: text, name: optional
    identifier}"; [name] defaults to [None]. *)
Record Message : Type := mkMessage {
  role : Role;
  content : string;
  name : option string
}.

Global Instance Message_eq_dec : EqDecision Message.
Proof. solve_decision. Defined.

(** An optional string as the Python value it is. *)
Definition py_optional (o : option string) : pyval :=
  match o with
  | Some s => PyStr s
  | None => PyNone
  end.

(** ** [OllamaProvider._format_messages] *)

(** One turn of the loop: the entry appended to [ollama_messages]. *)
Definition format_step (ollama_messages : list (gmap string pyval)) (msg : Message)
  : list (gmap string pyval) :=
  if decide (role msg = SYSTEM) then
    ollama_messages ++
      [ {[ "role" := PyStr "system"; "content" := PyStr (content msg) ]} ]
  else if decide (role msg = TOOL) then
    ollama_messages ++
      [ {[ "role" := PyStr "tool"; "content" := PyStr (content msg);
           "name" := py_optional (name msg) ]} ]
  else
    ollama_messages ++
      [ {[ "role" := PyStr (if decide (role msg = USER) then "user" else "assistant");
           "content" := PyStr (content msg) ]} ].

Definition _format_messages (messages : list Message) : list (gmap string pyval) :=
  foldl format_step [] messages.

(** ** Response envelope and tools ([legion/interface]) *)

(** Modelled from the spec: [TokenUsage], "usage: {prompt_tokens,
    completion_tokens, total_tokens}". *)
Record TokenUsage : Type := mkTokenUsage {
  prompt_tokens : pyval;
  completion_tokens : pyval;
  total_tokens : pyval
}.

(** Modelled from the spec: [ModelResponse], "{content, raw_response, usage,
    tool_calls: optional ordered list ... or null}". *)
Record ModelResponse : Type := mkModelResponse {
  resp_content : string;
  raw_response : pyval;
  usage : TokenUsage;
  tool_calls : option (list pyval)
}.

(** Modelled from the spec: [BaseTool], which "must expose get_schema()". *)
Record BaseTool : Type := mkBaseTool {
  get_schema : result pyval
}.

(** A pydantic model class, as far as the adapter uses it. *)
Record BaseModel : Type := mkBaseModel {
  model_json_schema : result pyval;
  model_validate : pyval → result unit
}.

(** The keyword arguments of one [chat] call on the Ollama client;
    [None] is an argument left out. *)
Record ChatRequest : Type := mkChatRequest {
  req_model : string;
  req_messages : list (gmap string pyval);
  req_tools : option (list pyval);
  req_options : gmap string pyval;
  req_stream : option pyval
}.

Definition LF : string := String (ascii_of_nat 10) "".

(** Modelled from the spec: the value of a [Role] member, a string enumeration
    of [legion/interface/schemas.py] ("role ∈ {system, user, assistant, tool}"). *)
Definition role_value (r : Role) : string :=
  match r with
  | SYSTEM => "system"
  | USER => "user"
  | ASSISTANT => "assistant"
  | TOOL => "tool"
  end.

(** Modelled from the spec: pydantic's [msg.model_dump()] on [Message], the
    dictionary of all of its fields, "{role, content, name}". *)
Definition model_dump (msg : Message) : gmap string pyval :=
  {[ "role" := PyStr (role_value (role msg));
     "content" := PyStr (content msg);
     "name" := py_optional (name msg) ]}.

(** ** The provider *)

Section OllamaProvider.

(** The backend and the [json] module are outside the adapter. *)
Variable client_chat : ChatRequest → result pyval.
Variable async_client_chat : ChatRequest → result pyval.
Variable json_dumps : pyval → result string.
Variable json_dumps_indent2 : pyval → result string.
Variable json_loads : string → result pyval.

(** [self.debug] *)
Variable debug : bool.

(** *** [_extract_usage] *)
Definition _extract_usage (response : pyval) : TokenUsage :=
  {| prompt_tokens := getattr_default response "prompt_tokens" (PyInt 0);
     completion_tokens := getattr_default response "completion_tokens" (PyInt 0);
     total_tokens := getattr_default response "total_tokens" (PyInt 0) |}.

(** *** [_extract_content] *)
Definition _extract_content (response : pyval) : result string :=
  if negb (hasattr response "message") then Ok ""
  else
    message ← getattr response "message";
    if hasattr message "content" then
      text ← getattr message "content";
      call_strip text
    else Ok "".

(** *** [_extract_tool_calls] *)

(** The loop over [response.message.tool_calls]; [tool_calls] is the list
    built so far.  The diagnostic [print] is not modelled beyond the
    [json.dumps] it evaluates. *)
Fixpoint extract_loop (pending : list pyval) (tool_calls : list pyval)
  : result (list pyval) :=
  match pending with
  | [] => Ok tool_calls
  | tool_call :: rest =>
      let call_id :=
        getattr_default tool_call "id"
          (PyStr ("call_" +:+ pretty (length tool_calls))) in
      function ← getattr tool_call "function";
      function_name ← getattr function "name";
      function' ← getattr tool_call "function";
      arguments ← getattr function' "arguments";
      dumped ← json_dumps arguments;
      let entry :=
        PyDict [ ("id", call_id);
                 ("type", PyStr "function");
                 ("function", PyDict [ ("name", function_name);
                                       ("arguments", PyStr dumped) ]) ] in
      _ ← (if debug then json_dumps_indent2 entry else Ok "");
      extract_loop rest (tool_calls ++ [entry])
  end.

Definition _extract_tool_calls (response : pyval) : result (option (list pyval)) :=
  if negb (hasattr response "message") then Ok None
  else
    message ← getattr response "message";
    if negb (hasattr message "tool_calls") then Ok None
    else
      raw_calls ← getattr message "tool_calls";
      pending ← iterate raw_calls;
      tool_calls ← extract_loop pending [];
      Ok (match tool_calls with [] => None | _ => Some tool_calls end).

(** *** [_get_chat_completion] *)

Definition chat_request (messages : list Message) (model : string)
    (temperature : pyval) (stream : pyval) : ChatRequest :=
  {| req_model := model;
     req_messages := _format_messages messages;
     req_tools := None;
     req_options := {[ "temperature" := temperature ]};
     req_stream := Some stream |}.

Definition _get_chat_completion (messages : list Message) (model : string)
    (temperature : pyval) (stream : pyval) : result ModelResponse :=
  reraise_as_provider_error "Ollama completion failed: "
    (response ← client_chat (chat_request messages model temperature stream);
     text ← _extract_content response;
     Ok {| resp_content := text;
           raw_response := response;
           usage := _extract_usage response;
           tool_calls := None |}).

(** *** [_get_tool_completion] *)

(** [[tool.get_schema() for tool in tools]] *)
Fixpoint tool_schemas (tools : list BaseTool) : result (list pyval) :=
  match tools with
  | [] => Ok []
  | tool :: rest =>
      schema ← get_schema tool;
      schemas ← tool_schemas rest;
      Ok (schema :: schemas)
  end.

Definition tool_request (messages : list Message) (model : string)
    (schemas : list pyval) (temperature : pyval) : ChatRequest :=
  {| req_model := model;
     req_messages := _format_messages messages;
     req_tools := Some schemas;
     req_options := {[ "temperature" := temperature ]};
     req_stream := Some (PyBool false) |}.

Definition _get_tool_completion (messages : list Message) (model : string)
    (tools : list BaseTool) (temperature json_temperature : pyval)
    (max_tokens : option Z) : result ModelResponse :=
  reraise_as_provider_error "Ollama tool completion failed: "
    (schemas ← tool_schemas tools;
     response ← client_chat (tool_request messages model schemas temperature);
     calls ← _extract_tool_calls response;
     text ← _extract_content response;
     Ok {| resp_content := text;
           raw_response := response;
           usage := _extract_usage response;
           tool_calls := calls |}).

(** *** [_get_json_completion] *)

(** The system instruction carrying the schema. *)
Definition schema_prompt_of (schema : option BaseModel) : result string :=
  cls ← match schema with
        | Some cls => Ok cls
        | None => Raise (no_attribute PyNone "model_json_schema")
        end;
  schema_json ← model_json_schema cls;
  rendered ← json_dumps_indent2 schema_json;
  Ok ("You must respond with valid JSON that matches this schema:" +:+ LF
      +:+ rendered +:+ LF +:+ LF
      +:+ "Respond ONLY with valid JSON. No other text.").

(** One turn of the loop over [messages]: the state is
    [(formatted_messages, system_content)]. *)
Definition json_step (schema_prompt : string) (st : list Message * string)
    (msg : Message) : list Message * string :=
  if decide (role msg = SYSTEM) then
    (st.1, content msg +:+ LF +:+ LF +:+ schema_prompt)
  else
    (st.1 ++ [msg], st.2).

(** The loop, then [formatted_messages.insert(0, Message(role=SYSTEM, ...))]. *)
Definition json_messages (schema_prompt : string) (messages : list Message)
  : list Message :=
  let st := foldl (json_step schema_prompt) ([], schema_prompt) messages in
  {| role := SYSTEM; content := st.2; name := None |} :: st.1.

Definition json_request (messages : list Message) (model : string)
    (schema_prompt : string) (temperature : pyval) : ChatRequest :=
  {| req_model := model;
     req_messages := _format_messages (json_messages schema_prompt messages);
     req_tools := None;
     req_options := {[ "temperature" := temperature; "format" := PyStr "json" ]};
     req_stream := Some (PyBool false) |}.

(** The inner [try]: extract, parse and validate the content. *)
Definition validated_content (schema : option BaseModel) (response : pyval)
  : result string :=
  reraise_as_provider_error "Invalid JSON response: "
    (text ← _extract_content response;
     data ← json_loads text;
     cls ← match schema with
           | Some cls => Ok cls
           | None => Raise (no_attribute PyNone "model_validate")
           end;
     _ ← model_validate cls data;
     Ok text).

Definition _get_json_completion (messages : list Message) (model : string)
    (schema : option BaseModel) (temperature : pyval) (max_tokens : option Z)
  : result ModelResponse :=
  reraise_as_provider_error "Ollama JSON completion failed: "
    (schema_prompt ← schema_prompt_of schema;
     response ← client_chat (json_request messages model schema_prompt temperature);
     text ← validated_content schema response;
     Ok {| resp_content := text;
           raw_response := response;
           usage := _extract_usage response;
           tool_calls := None |}).

(** *** [_response_to_dict] *)

(** The comprehension over the tool calls. *)
Fixpoint calls_to_dicts (pending : list pyval) : result (list pyval) :=
  match pending with
  | [] => Ok []
  | tool_call :: rest =>
      call_id ← getattr tool_call "id";
      call_type ← getattr tool_call "type";
      function ← getattr tool_call "function";
      function_name ← getattr function "name";
      function' ← getattr tool_call "function";
      arguments ← getattr function' "arguments";
      others ← calls_to_dicts rest;
      Ok (PyDict [ ("id", call_id);
                   ("type", call_type);
                   ("function", PyDict [ ("name", function_name);
                                         ("arguments", arguments) ]) ]
          :: others)
  end.

(** [response.message] is read once here; the source reads it again for
    every field, with the same outcome. *)
Definition _response_to_dict (response : pyval) : result pyval :=
  message ← getattr response "message";
  message_role ← getattr message "role";
  message_content ← getattr message "content";
  raw_calls ← getattr message "tool_calls";
  calls ← (if truthy raw_calls then
             pending ← iterate (if truthy raw_calls then raw_calls else PyList []);
             dicts ← calls_to_dicts pending;
             Ok (PyList dicts)
           else Ok PyNone);
  model ← getattr response "model";
  created_at ← getattr response "created_at";
  Ok (PyDict [ ("message", PyDict [ ("role", message_role);
                                    ("content", message_content);
                                    ("tool_calls", calls) ]);
               ("model", model);
               ("created_at", created_at) ]).

(** *** The asynchronous client and [_aget_chat_completion] *)

(** [from ollama import AsyncClient] and the constructor call. *)
Variable import_AsyncClient : result unit.
Variable AsyncClient : result unit.

Definition _asetup_client : result unit :=
  _ ← import_AsyncClient;
  reraise_as_provider_error "Failed to initialize async OpenAI client: " AsyncClient.

(** [self._async_client] is [None] ([false]) or a client ([true]); the
    result is its state afterwards. *)
Definition _ensure_async_client (async_client : bool) : result bool :=
  if async_client then Ok true
  else (_ ← _asetup_client; Ok true).

Definition achat_request (messages : list Message) (model : string)
    (temperature : pyval) : ChatRequest :=
  {| req_model := model;
     req_messages := map model_dump messages;
     req_tools := None;
     req_options := {[ "temperature" := temperature ]};
     req_stream := None |}.

Definition _aget_chat_completion (async_client : bool) (messages : list Message)
    (model : string) (temperature : pyval) (max_tokens : option Z)
  : result ModelResponse * bool :=
  match _ensure_async_client async_client with
  | Raise e =>
      (Raise (Exn ProviderError ("Ollama async completion failed: " +:+ exn_msg e)),
       async_client)
  | Ok ready =>
      (reraise_as_provider_error "Ollama async completion failed: "
         (response ← async_client_chat (achat_request messages model temperature);
          text ← _extract_content response;
          raw ← _response_to_dict response;
          Ok {| resp_content := text;
                raw_response := raw;
                usage := _extract_usage response;
                tool_calls := None |}),
       ready)
  end.

End OllamaProvider.

(** * Properties *)

(** ** Message translation *)

(** The wire entry of one message: what one turn of the loop of
    [_format_messages] appends. *)
Definition format_message (msg : Message) : gmap string pyval :=
  match role msg with
  | SYSTEM => {[ "role" := PyStr "system"; "content" := PyStr (content msg) ]}
  | TOOL => {[ "role" := PyStr "tool"; "content" := PyStr (content msg);
               "name" := py_optional (name msg) ]}
  | USER => {[ "role" := PyStr "user"; "content" := PyStr (content msg) ]}
  | ASSISTANT => {[ "role" := PyStr "assistant"; "content" := PyStr (content msg) ]}
  end.

(** The inverse mapping: the canonical message a wire entry stands for. *)
Definition role_of_wire (s : string) : option Role :=
  if decide (s = "system") then Some SYSTEM
  else if decide (s = "user") then Some USER
  else if decide (s = "assistant") then Some ASSISTANT
  else if decide (s = "tool") then Some TOOL
  else None.

Definition wire_to_message (w : gmap string pyval) : option Message :=
  match w !! "role", w !! "content" with
  | Some (PyStr r), Some (PyStr text) =>
      match role_of_wire r, w !! "name" with
      | Some r', None | Some r', Some PyNone => Some (mkMessage r' text None)
      | Some r', Some (PyStr n) => Some (mkMessage r' text (Some n))
      | _, _ => None
      end
  | _, _ => None
  end.

(** What translation keeps of a message: the name only of a tool message. *)
Definition without_untranslated_name (msg : Message) : Message :=
  if decide (role msg = TOOL) then msg
  else mkMessage (role msg) (content msg) None.

Lemma format_step_snoc (acc : list (gmap string pyval)) (msg : Message) :
  format_step acc msg = acc ++ [format_message msg].
Proof.
  unfold format_step, format_message.
  destruct (role msg); repeat case_decide; congruence.
Qed.

Lemma foldl_format_step (messages : list Message) (acc : list (gmap string pyval)) :
  foldl format_step acc messages = acc ++ map format_message messages.
Proof.
  revert acc. induction messages as [|msg messages IH]; intros acc; simpl.
  - by rewrite app_nil_r.
  - rewrite IH, format_step_snoc, <- app_assoc. done.
Qed.

Lemma _format_messages_map (messages : list Message) :
  _format_messages messages = map format_message messages.
Proof. unfold _format_messages. by rewrite foldl_format_step. Qed.

Lemma format_message_role (msg : Message) :
  format_message msg !! "role" = Some (PyStr (role_value (role msg))).
Proof. unfold format_message. by destruct (role msg). Qed.

Lemma format_message_content (msg : Message) :
  format_message msg !! "content" = Some (PyStr (content msg)).
Proof. unfold format_message. by destruct (role msg). Qed.

Lemma format_message_name (msg : Message) :
  format_message msg !! "name" =
    if decide (role msg = TOOL) then Some (py_optional (name msg)) else None.
Proof. unfold format_message. by destruct (role msg). Qed.

Lemma role_of_wire_value (r : Role) : role_of_wire (role_value r) = Some r.
Proof. by destruct r. Qed.

Lemma wire_to_message_format (msg : Message) :
  wire_to_message (format_message msg) = Some (without_untranslated_name msg).
Proof.
  unfold wire_to_message.
  rewrite format_message_role, format_message_content, format_message_name.
  rewrite role_of_wire_value. unfold without_untranslated_name.
  destruct msg as [r text [n|]]; simpl; by case_decide.
Qed.

Lemma _format_messages_lookup (messages : list Message) (i : nat) (msg : Message) :
  messages !! i = Some msg →
  _format_messages messages !! i = Some (format_message msg).
Proof.
  intros Hi. rewrite _format_messages_map, list_lookup_fmap. by rewrite Hi.
Qed.

(** C7: translation to the wire format keeps the messages in their order (the
    translated sequence has the length of the input, its entry at a position
    carries the role and the content of the message at that position, and
    the inverse mapping applied entry by entry gives the input back, up to
    the names of the messages that are not tool messages); the entry of a
    tool message with a name has role "tool", the same content and the same
    name, and the inverse mapping recovers the message from it. *)
Theorem format_messages_order_and_tool_roundtrip (messages : list Message) :
  length (_format_messages messages) = length messages
  ∧ mapM wire_to_message (_format_messages messages)
    = Some (map without_untranslated_name messages)
  ∧ (∀ i msg, messages !! i = Some msg →
       ∃ w, _format_messages messages !! i = Some w
            ∧ w !! "role" = Some (PyStr (role_value (role msg)))
            ∧ w !! "content" = Some (PyStr (content msg)))
  ∧ (∀ i msg n, messages !! i = Some msg → role msg = TOOL → name msg = Some n →
       ∃ w, _format_messages messages !! i = Some w
            ∧ w !! "role" = Some (PyStr "tool")
            ∧ w !! "content" = Some (PyStr (content msg))
            ∧ w !! "name" = Some (PyStr n)
            ∧ wire_to_message w = Some msg).
Proof.
  split_and!.
  - by rewrite _format_messages_map, length_map.
  - rewrite _format_messages_map. apply mapM_Some.
    induction messages as [|msg messages IH]; simpl; constructor; [|done].
    apply wire_to_message_format.
  - intros i msg Hi. exists (format_message msg).
    split; [by apply _format_messages_lookup|].
    split; [apply format_message_role | apply format_message_content].
  - intros i msg n Hi Hrole Hname. exists (format_message msg).
    split; [by apply _format_messages_lookup|].
    rewrite format_message_role, format_message_content, format_message_name,
      wire_to_message_format.
    unfold without_untranslated_name. rewrite Hrole, Hname.
    by rewrite !decide_True by done.
Qed.

Lemma format_messages_order_and_tool_roundtrip_witness :
  let messages := [ mkMessage USER "What is 6 times 7?" None;
                    mkMessage TOOL "42" (Some "calculator");
                    mkMessage ASSISTANT "It is 42." None ] in
  ∃ w, _format_messages messages !! 1 = Some w
       ∧ w !! "role" = Some (PyStr "tool")
       ∧ w !! "content" = Some (PyStr "42")
       ∧ w !! "name" = Some (PyStr "calculator")
       ∧ wire_to_message w = Some (mkMessage TOOL "42" (Some "calculator")).
Proof.
  intros messages.
  apply (proj2 (proj2 (proj2 (format_messages_order_and_tool_roundtrip messages)))
           1 (mkMessage TOOL "42" (Some "calculator")) "calculator");
    reflexivity.
Defined.

(** C10: the wire entry of a user or assistant message has exactly the keys
    "role" and "content", whatever name the message carries; in the whole
    translated sequence a "name" key appears only on the entries of tool
    messages. *)
Theorem format_messages_drops_name (messages : list Message) (i : nat) (msg : Message) :
  messages !! i = Some msg →
  role msg = USER ∨ role msg = ASSISTANT →
  (∃ w, _format_messages messages !! i = Some w
        ∧ dom w = {[ "role"; "content" ]}
        ∧ w !! "name" = None)
  ∧ (∀ j msg' w', messages !! j = Some msg' →
       _format_messages messages !! j = Some w' →
       is_Some (w' !! "name") → role msg' = TOOL).
Proof.
  intros Hi Hrole. split.
  - exists (format_message msg).
    split; [by apply _format_messages_lookup|].
    rewrite format_message_name. unfold format_message.
    destruct Hrole as [-> | ->]; (split; [|done]);
      rewrite !dom_insert_L, dom_singleton_L; set_solver.
  - intros j msg' w' Hj Hw'.
    rewrite (_format_messages_lookup _ _ _ Hj) in Hw'. injection Hw' as <-.
    rewrite format_message_name. case_decide; [done|]. by intros [? ?].
Qed.

Lemma format_messages_drops_name_witness :
  ∃ w, _format_messages [ mkMessage USER "hello" (Some "alice") ] !! 0 = Some w
       ∧ dom w = {[ "role"; "content" ]}
       ∧ w !! "name" = None.
Proof.
  apply (format_messages_drops_name
           [ mkMessage USER "hello" (Some "alice") ] 0
           (mkMessage USER "hello" (Some "alice"))).
  - reflexivity.
  - left. reflexivity.
Defined.

(** ** Content extraction *)

Fixpoint all_space (s : string) : bool :=
  match s with
  | "" => true
  | String c rest => is_space c && all_space rest
  end.

Definition starts_with_space (s : string) : bool :=
  match s with
  | "" => false
  | String c _ => is_space c
  end.

Fixpoint ends_with_space (s : string) : bool :=
  match s with
  | "" => false
  | String c "" => is_space c
  | String _ rest => ends_with_space rest
  end.

Lemma lstrip_split (s : string) :
  ∃ l, s = l +:+ lstrip s ∧ all_space l = true.
Proof.
  induction s as [|c rest [l [Hl Hsp]]]; simpl.
  - by exists "".
  - destruct (is_space c) eqn:Hc.
    + exists (String c l). split; [by rewrite Hl at 1 | simpl; by rewrite Hc].
    + by exists "".
Qed.

Lemma lstrip_start (s : string) : starts_with_space (lstrip s) = false.
Proof.
  induction s as [|c rest IH]; simpl; [done|].
  destruct (is_space c) eqn:Hc; [done|]. simpl. by rewrite Hc.
Qed.

Lemma rstrip_split (s : string) :
  ∃ r, s = rstrip s +:+ r ∧ all_space r = true.
Proof.
  induction s as [|c rest [r [Hr Hsp]]]; simpl.
  - by exists "".
  - destruct (rstrip rest) as [|k kept] eqn:Hk.
    + simpl in Hr. subst rest. destruct (is_space c) eqn:Hc.
      * exists (String c r). simpl. by rewrite Hc, Hsp.
      * by exists r.
    + exists r. split; [by rewrite Hr at 1 | done].
Qed.

Lemma rstrip_end (s : string) : ends_with_space (rstrip s) = false.
Proof.
  induction s as [|c rest IH]; simpl; [done|].
  destruct (rstrip rest) as [|k kept] eqn:Hk.
  - destruct (is_space c) eqn:Hc; [done|]. simpl. by rewrite Hc.
  - exact IH.
Qed.

Lemma rstrip_start (s : string) :
  starts_with_space s = false → starts_with_space (rstrip s) = false.
Proof.
  destruct s as [|c rest]; simpl; [done|]. intros Hc.
  destruct (rstrip rest); [|done]. by rewrite Hc.
Qed.

Lemma strip_split (s : string) :
  ∃ l r, s = l +:+ strip s +:+ r ∧ all_space l = true ∧ all_space r = true.
Proof.
  destruct (lstrip_split s) as [l [Hl Hlsp]].
  destruct (rstrip_split (lstrip s)) as [r [Hr Hrsp]].
  exists l, r. unfold strip. by rewrite <- Hr.
Qed.

Lemma strip_start (s : string) : starts_with_space (strip s) = false.
Proof. apply rstrip_start, lstrip_start. Qed.

Lemma strip_end (s : string) : ends_with_space (strip s) = false.
Proof. apply rstrip_end. Qed.

Lemma strip_changes (s : string) :
  starts_with_space s = true ∨ ends_with_space s = true → strip s ≠ s.
Proof.
  intros [H|H] Heq.
  - pose proof (strip_start s) as H'. rewrite Heq in H'. congruence.
  - pose proof (strip_end s) as H'. rewrite Heq in H'. congruence.
Qed.

(** C9: when the message content of the raw response is a string, the
    extracted content is that string with its leading and trailing white
    space removed: what is cut off on either side is white space only, what
    is left neither starts nor ends with white space, and a content that
    starts or ends with white space is never returned as it is. *)
Theorem extract_content_strips (response message : pyval) (s : string) :
  attr_of response "message" = Some message →
  attr_of message "content" = Some (PyStr s) →
  _extract_content response = Ok (strip s)
  ∧ (∃ l r, s = l +:+ strip s +:+ r ∧ all_space l = true ∧ all_space r = true)
  ∧ starts_with_space (strip s) = false
  ∧ ends_with_space (strip s) = false
  ∧ (starts_with_space s = true ∨ ends_with_space s = true →
       _extract_content response ≠ Ok s).
Proof.
  intros Hm Hc.
  assert (_extract_content response = Ok (strip s)) as Hex.
  { unfold _extract_content, hasattr, getattr. rewrite Hm. simpl.
    by rewrite Hc. }
  split_and!; [done | apply strip_split | apply strip_start | apply strip_end |].
  intros Hsp. rewrite Hex. intros [= Heq]. by apply (strip_changes s).
Qed.

Lemma extract_content_strips_witness :
  _extract_content
    (PyObj "ChatResponse"
       [ ("model", PyStr "llama3.2");
         ("message", PyObj "Message"
            [ ("role", PyStr "assistant");
              ("content", PyStr ("  Hello, World!" +:+ LF)) ]) ])
  = Ok "Hello, World!".
Proof.
  apply (extract_content_strips _
           (PyObj "Message"
              [ ("role", PyStr "assistant");
                ("content", PyStr ("  Hello, World!" +:+ LF)) ])
           ("  Hello, World!" +:+ LF)); reflexivity.
Defined.

Lemma extract_content_no_message (response : pyval) :
  attr_of response "message" = None → _extract_content response = Ok "".
Proof. intros H. unfold _extract_content, hasattr. by rewrite H. Qed.

Lemma extract_content_no_content (response message : pyval) :
  attr_of response "message" = Some message →
  attr_of message "content" = None →
  _extract_content response = Ok "".
Proof.
  intros Hm Hc. unfold _extract_content, hasattr, getattr. rewrite Hm. simpl.
  by rewrite Hc.
Qed.

(** C5: on a raw response whose message holds [None] as its content (the
    field is present, its value is not a string) content extraction does not
    return the empty string: it raises [AttributeError]. *)
Theorem extract_content_raises_on_null_content :
  _extract_content
    (PyObj "ChatResponse"
       [ ("model", PyStr "llama3.2");
         ("message", PyObj "Message"
            [ ("role", PyStr "assistant"); ("content", PyNone) ]) ])
  = Raise (Exn AttributeError "'NoneType' object has no attribute 'strip'").
Proof. reflexivity. Qed.

(** ** The error monad *)

Lemma bind_Ok {A B : Type} (r : result A) (k : A → result B) (b : B) :
  r ≫= k = Ok b → ∃ a, r = Ok a ∧ k a = Ok b.
Proof. destruct r as [a|e]; [by exists a | done]. Qed.

Lemma reraise_Ok {A : Type} (prefix : string) (body : result A) (a : A) :
  reraise_as_provider_error prefix body = Ok a → body = Ok a.
Proof. by destruct body. Qed.

Lemma reraise_class {A : Type} (prefix : string) (body : result A) (e : exn) :
  reraise_as_provider_error prefix body = Raise e → exn_class e = ProviderError.
Proof. destruct body; [done|]. by intros [= <-]. Qed.

Ltac bind_inv H :=
  let a := fresh "a" in
  let Ha := fresh "Ha" in
  apply bind_Ok in H as [a [Ha H]].

(** ** Tool-call extraction *)

(** The tool invocations the backend reports: [response.message.tool_calls],
    as the loop of [_extract_tool_calls] draws them. *)
Definition reported_tool_calls (response : pyval) : result (list pyval) :=
  message ← getattr response "message";
  raw_calls ← getattr message "tool_calls";
  iterate raw_calls.

(** [call["id"]] of an extracted tool call. *)
Definition entry_id (call : pyval) : option pyval :=
  match call with
  | PyDict items => assoc "id" items
  | _ => None
  end.

Section ToolCalls.

Variable json_dumps : pyval → result string.
Variable json_dumps_indent2 : pyval → result string.
Variable debug : bool.

Local Abbreviation loop := (extract_loop json_dumps json_dumps_indent2 debug).
Local Abbreviation extract :=
  (_extract_tool_calls json_dumps json_dumps_indent2 debug).

(** A reported invocation the loop can convert: it has a function with a
    name and arguments that [json.dumps] accepts. *)
Definition convertible (tool_call : pyval) : Prop :=
  ∃ function function_name arguments dumped,
    attr_of tool_call "function" = Some function
    ∧ attr_of function "name" = Some function_name
    ∧ attr_of function "arguments" = Some arguments
    ∧ json_dumps arguments = Ok dumped.

Lemma extract_loop_spec (pending acc calls : list pyval) :
  loop pending acc = Ok calls →
  ∃ new, calls = acc ++ new
         ∧ length new = length pending
         ∧ ∀ i raw, pending !! i = Some raw →
             ∃ call, new !! i = Some call
                     ∧ entry_id call
                       = Some (getattr_default raw "id"
                                 (PyStr ("call_" +:+ pretty (length acc + i)))).
Proof.
  revert acc. induction pending as [|tool_call rest IH]; intros acc H; simpl in H.
  - injection H as <-. exists []. rewrite app_nil_r. by split_and!.
  - do 6 bind_inv H.
    match type of H with context [acc ++ [?e]] => set (entry := e) in * end.
    apply IH in H as [new [-> [Hlen Hnew]]].
    exists (entry :: new). split_and!.
    + by rewrite <- app_assoc.
    + simpl. by rewrite Hlen.
    + intros [|i] raw Hi; simpl in Hi.
      * injection Hi as <-. exists entry. split; [done|]. simpl.
        by rewrite Nat.add_0_r.
      * destruct (Hnew i raw Hi) as [call [Hcall Hid]].
        exists call. split; [done|]. rewrite Hid.
        rewrite length_app. simpl.
        by replace (length acc + 1 + i) with (length acc + S i) by lia.
Qed.

Lemma extract_loop_total (pending acc : list pyval) :
  Forall convertible pending →
  (debug = true → ∀ v, ∃ s, json_dumps_indent2 v = Ok s) →
  ∃ calls, loop pending acc = Ok calls.
Proof.
  intros Hall Hdebug. revert acc.
  induction Hall as [|tool_call rest Hc _ IH]; intros acc; simpl.
  - by eexists.
  - destruct Hc as (f & fname & args & dumped & Hf & Hname & Hargs & Hdump).
    unfold getattr. rewrite Hf. simpl. rewrite Hname. simpl. rewrite Hargs.
    simpl. rewrite Hdump. simpl.
    destruct debug eqn:Hd.
    + destruct (Hdebug eq_refl
        (PyDict
           [ ("id", getattr_default tool_call "id"
                      (PyStr ("call_" +:+ pretty (length acc))));
             ("type", PyStr "function");
             ("function", PyDict [ ("name", fname);
                                   ("arguments", PyStr dumped) ]) ]))
        as [s ->].
      simpl. apply IH.
    + simpl. apply IH.
Qed.

Lemma synthesized_id_inj (i j : nat) :
  PyStr ("call_" +:+ pretty i) = PyStr ("call_" +:+ pretty j) → i = j.
Proof.
  intros [= H]. apply (inj (String.app "")) in H. by apply (inj pretty) in H.
Qed.

Lemma getattr_default_absent (o : pyval) (attr : string) (default : pyval) :
  hasattr o attr = false → getattr_default o attr default = default.
Proof. unfold hasattr, getattr_default. by destruct (attr_of o attr). Qed.

Lemma reported_tool_calls_Ok (response : pyval) (pending : list pyval) :
  reported_tool_calls response = Ok pending →
  ∃ message raw_calls,
    attr_of response "message" = Some message
    ∧ attr_of message "tool_calls" = Some raw_calls
    ∧ iterate raw_calls = Ok pending.
Proof.
  unfold reported_tool_calls, getattr. intros H.
  destruct (attr_of response "message") as [message|] eqn:Hm; [|done].
  simpl in H.
  destruct (attr_of message "tool_calls") as [raw_calls|] eqn:Ht; [|done].
  by exists message, raw_calls.
Qed.

Lemma extract_tool_calls_reported (response : pyval) (pending : list pyval) :
  reported_tool_calls response = Ok pending →
  extract response
  = (tool_calls ← loop pending [];
     Ok (match tool_calls with [] => None | _ => Some tool_calls end)).
Proof.
  intros H. apply reported_tool_calls_Ok in H as (message & raw & Hm & Ht & Hit).
  unfold _extract_tool_calls, hasattr, getattr.
  rewrite Hm. simpl. rewrite Ht. simpl. by rewrite Hit.
Qed.


(** No message, or a message without a [tool_calls] attribute: [None]. *)
Lemma extract_tool_calls_absent (response : pyval) :
  (attr_of response "message" = None
   ∨ ∃ message, attr_of response "message" = Some message
                ∧ attr_of message "tool_calls" = None) →
  extract response = Ok None.
Proof.
  unfold _extract_tool_calls, hasattr, getattr.
  intros [Hm | (message & Hm & Ht)]; rewrite Hm; [done|]. simpl. by rewrite Ht.
Qed.

(** The backend reports an empty list of invocations: [None]. *)
Lemma extract_tool_calls_none_reported (response : pyval) :
  reported_tool_calls response = Ok [] → extract response = Ok None.
Proof. intros H. by rewrite (extract_tool_calls_reported _ _ H). Qed.

(** The backend reports one or more invocations that can be converted: a
    list of as many tool calls. *)
Lemma extract_tool_calls_some_reported (response : pyval) (pending : list pyval) :
  reported_tool_calls response = Ok pending →
  pending ≠ [] →
  Forall convertible pending →
  (debug = true → ∀ v, ∃ s, json_dumps_indent2 v = Ok s) →
  ∃ calls, extract response = Ok (Some calls)
           ∧ calls ≠ [] ∧ length calls = length pending.
Proof.
  intros Hrep Hne Hall Hdebug.
  destruct (extract_loop_total pending [] Hall Hdebug) as [calls Hloop].
  destruct (extract_loop_spec _ _ _ Hloop) as (new & -> & Hlen & _).
  simpl in *. rewrite (extract_tool_calls_reported _ _ Hrep), Hloop. simpl.
  destruct new as [|call new]; [by destruct pending|].
  by exists (call :: new).
Qed.

(** C6: every extracted tool call whose reported invocation has no [id]
    gets the id "call_<index>", its position in the extracted list written
    in decimal, and the ids synthesized within one response are pairwise
    distinct; the extraction does return such a list whenever the backend
    reports at least one invocation and all of them can be converted. *)
Theorem synthesized_call_ids (response : pyval) (pending : list pyval) :
  reported_tool_calls response = Ok pending →
  (∀ calls, extract response = Ok (Some calls) →
     length calls = length pending
     ∧ (∀ i raw, pending !! i = Some raw → hasattr raw "id" = false →
          ∃ call, calls !! i = Some call
                  ∧ entry_id call = Some (PyStr ("call_" +:+ pretty i)))
     ∧ (∀ i j raw_i raw_j call_i call_j,
          i ≠ j →
          pending !! i = Some raw_i → hasattr raw_i "id" = false →
          pending !! j = Some raw_j → hasattr raw_j "id" = false →
          calls !! i = Some call_i → calls !! j = Some call_j →
          entry_id call_i ≠ entry_id call_j))
  ∧ (pending ≠ [] →
     Forall convertible pending →
     (debug = true → ∀ v, ∃ s, json_dumps_indent2 v = Ok s) →
     ∃ calls, extract response = Ok (Some calls)).
Proof.
  intros Hrep. split.
  - intros calls H. rewrite (extract_tool_calls_reported _ _ Hrep) in H.
    bind_inv H.
    assert (a = calls) as -> by (destruct a; simpl in H; congruence).
    destruct (extract_loop_spec _ _ _ Ha) as (new & Hnew & Hlen & Hids).
    simpl in Hnew. subst new.
    split_and!; [done | |].
    + intros i raw Hi Hid. destruct (Hids i raw Hi) as (call & Hcall & Hentry).
      exists call. split; [done|].
      by rewrite Hentry, getattr_default_absent.
    + intros i j raw_i raw_j call_i call_j Hne Hi Hidi Hj Hidj Hci Hcj Heq.
      destruct (Hids i raw_i Hi) as (ci & Hci' & Hei).
      destruct (Hids j raw_j Hj) as (cj & Hcj' & Hej).
      simplify_eq. rewrite Hei, Hej, !getattr_default_absent in Heq by done.
      change (length (@nil pyval) + i) with i in Heq.
      change (length (@nil pyval) + j) with j in Heq.
      apply Hne, synthesized_id_inj. congruence.
  - intros Hne Hall Hdebug.
    destruct (extract_tool_calls_some_reported _ _ Hrep Hne Hall Hdebug)
      as (calls & H & _).
    by exists calls.
Qed.

End ToolCalls.

(** A response in which the model calls [simple_tool] twice; the
    invocations carry no [id].  [json.dumps] is known on the empty
    dictionary. *)
Definition dumps_empty_dict (v : pyval) : result string :=
  match v with
  | PyDict [] => Ok "{}"
  | _ => Raise (Exn TypeError
                  ("Object of type " +:+ type_name v +:+ " is not JSON serializable"))
  end.

Definition simple_tool_call : pyval :=
  PyObj "ToolCall"
    [ ("function", PyObj "Function"
         [ ("name", PyStr "simple_tool"); ("arguments", PyDict []) ]) ].

Definition two_calls_response : pyval :=
  PyObj "ChatResponse"
    [ ("model", PyStr "llama3.2");
      ("created_at", PyStr "2025-01-01T00:00:00Z");
      ("message", PyObj "Message"
         [ ("role", PyStr "assistant");
           ("content", PyStr "");
           ("tool_calls", PyList [simple_tool_call; simple_tool_call]) ]) ].

Lemma simple_tool_call_convertible : convertible dumps_empty_dict simple_tool_call.
Proof.
  exists (PyObj "Function"
            [ ("name", PyStr "simple_tool"); ("arguments", PyDict []) ]),
    (PyStr "simple_tool"), (PyDict []), "{}".
  by split_and!.
Qed.

Lemma synthesized_call_ids_witness :
  ∃ calls,
    _extract_tool_calls dumps_empty_dict dumps_empty_dict false two_calls_response
    = Ok (Some calls).
Proof.
  apply (proj2 (synthesized_call_ids dumps_empty_dict dumps_empty_dict false
                  two_calls_response [simple_tool_call; simple_tool_call]
                  eq_refl)).
  - discriminate.
  - repeat constructor; apply simple_tool_call_convertible.
  - discriminate.
Defined.

(** The response of a model that calls no tool: the client library leaves
    [tool_calls] at [None]. *)
Definition no_calls_response : pyval :=
  PyObj "ChatResponse"
    [ ("model", PyStr "llama3.2");
      ("created_at", PyStr "2025-01-01T00:00:00Z");
      ("message", PyObj "Message"
         [ ("role", PyStr "assistant");
           ("content", PyStr "Hello, World!");
           ("tool_calls", PyNone) ]) ].

(** [_response_to_dict] takes a [tool_calls] that is [None] for "no tool
    call". *)
Lemma response_to_dict_null_tool_calls :
  _response_to_dict no_calls_response
  = Ok (PyDict
          [ ("message", PyDict [ ("role", PyStr "assistant");
                                 ("content", PyStr "Hello, World!");
                                 ("tool_calls", PyNone) ]);
            ("model", PyStr "llama3.2");
            ("created_at", PyStr "2025-01-01T00:00:00Z") ]).
Proof. reflexivity. Qed.

(** C2: on a response whose [tool_calls] is [None] (no tool invocation),
    tool-call extraction does not return [None]: the loop raises
    [TypeError], and the tool completion fails with a [ProviderError]. *)
Theorem extract_tool_calls_raises_on_null_tool_calls
    (json_dumps json_dumps_indent2 : pyval → result string) (debug : bool) :
  _extract_tool_calls json_dumps json_dumps_indent2 debug no_calls_response
  = Raise (Exn TypeError "'NoneType' object is not iterable")
  ∧ _get_tool_completion (λ _, Ok no_calls_response)
      json_dumps json_dumps_indent2 debug
      [ mkMessage USER "Say 'Hello, World!'" None ] "llama3.2" []
      (PyInt 0) (PyInt 0) None
    = Raise (Exn ProviderError
               "Ollama tool completion failed: 'NoneType' object is not iterable").
Proof. split; reflexivity. Qed.

(** ** The synchronous completion operations *)

(** A call of one of the three synchronous operations, with its arguments. *)
Inductive sync_call : Type :=
| ChatCompletion (messages : list Message) (model : string)
    (temperature stream : pyval)
| ToolCompletion (messages : list Message) (model : string)
    (tools : list BaseTool) (temperature json_temperature : pyval)
    (max_tokens : option Z)
| JsonCompletion (messages : list Message) (model : string)
    (schema : option BaseModel) (temperature : pyval) (max_tokens : option Z).

(** The prefix each operation puts before the message of what it caught. *)
Definition failure_prefix (call : sync_call) : string :=
  match call with
  | ChatCompletion _ _ _ _ => "Ollama completion failed: "
  | ToolCompletion _ _ _ _ _ _ => "Ollama tool completion failed: "
  | JsonCompletion _ _ _ _ _ => "Ollama JSON completion failed: "
  end.

Section Completions.

Variable client_chat : ChatRequest → result pyval.
Variable json_dumps : pyval → result string.
Variable json_dumps_indent2 : pyval → result string.
Variable json_loads : string → result pyval.
Variable debug : bool.

Definition run (call : sync_call) : result ModelResponse :=
  match call with
  | ChatCompletion messages model temperature stream =>
      _get_chat_completion client_chat messages model temperature stream
  | ToolCompletion messages model tools temperature json_temperature max_tokens =>
      _get_tool_completion client_chat json_dumps json_dumps_indent2 debug
        messages model tools temperature json_temperature max_tokens
  | JsonCompletion messages model schema temperature max_tokens =>
      _get_json_completion client_chat json_dumps_indent2 json_loads
        messages model schema temperature max_tokens
  end.

(** The request with which the operation calls the backend, when what it
    evaluates before the call does not raise. *)
Definition backend_request (call : sync_call) : result ChatRequest :=
  match call with
  | ChatCompletion messages model temperature stream =>
      Ok (chat_request messages model temperature stream)
  | ToolCompletion messages model tools temperature _ _ =>
      schemas ← tool_schemas tools;
      Ok (tool_request messages model schemas temperature)
  | JsonCompletion messages model schema temperature _ =>
      schema_prompt ← schema_prompt_of json_dumps_indent2 schema;
      Ok (json_request messages model schema_prompt temperature)
  end.

Lemma run_raises_provider_error (call : sync_call) (e : exn) :
  run call = Raise e → exn_class e = ProviderError.
Proof. destruct call; apply reraise_class. Qed.

(** C4: when the backend raises during one of the three synchronous
    completion operations, the operation fails with a [ProviderError] whose
    message is the operation's prefix followed by the message of the
    original exception; and whatever a synchronous operation raises is a
    [ProviderError]. *)
Theorem backend_failure_wrapped (call : sync_call) (request : ChatRequest) (e : exn) :
  backend_request call = Ok request →
  client_chat request = Raise e →
  run call = Raise (Exn ProviderError (failure_prefix call +:+ exn_msg e))
  ∧ (∀ call' e', run call' = Raise e' → exn_class e' = ProviderError).
Proof.
  intros Hreq Hraise. split; [|apply run_raises_provider_error].
  destruct call; simpl in *.
  - injection Hreq as <-. unfold _get_chat_completion. by rewrite Hraise.
  - bind_inv Hreq. injection Hreq as <-.
    unfold _get_tool_completion. rewrite Ha. simpl. by rewrite Hraise.
  - bind_inv Hreq. injection Hreq as <-.
    unfold _get_json_completion. rewrite Ha. simpl. by rewrite Hraise.
Qed.

(** C3: when the backend's reply has a content that [json.loads] rejects,
    or that parses to a value the schema's validation rejects, the JSON
    completion returns no [ModelResponse]: it fails with a [ProviderError]
    whose message names the invalid JSON response and carries the reason. *)
Theorem json_completion_rejects_invalid (messages : list Message) (model : string)
    (cls : BaseModel) (temperature : pyval) (max_tokens : option Z)
    (schema_prompt : string) (response : pyval) (text : string) (e : exn) :
  schema_prompt_of json_dumps_indent2 (Some cls) = Ok schema_prompt →
  client_chat (json_request messages model schema_prompt temperature) = Ok response →
  _extract_content response = Ok text →
  (json_loads text = Raise e
   ∨ ∃ data, json_loads text = Ok data ∧ model_validate cls data = Raise e) →
  _get_json_completion client_chat json_dumps_indent2 json_loads
    messages model (Some cls) temperature max_tokens
  = Raise (Exn ProviderError
             ("Ollama JSON completion failed: "
              +:+ "Invalid JSON response: " +:+ exn_msg e)).
Proof.
  intros Hprompt Hchat Htext Hbad.
  unfold _get_json_completion. rewrite Hprompt. simpl. rewrite Hchat. simpl.
  unfold validated_content. rewrite Htext. simpl.
  destruct Hbad as [-> | (data & -> & Hval)]; simpl; [done|].
  by rewrite Hval.
Qed.


End Completions.

(** A backend that knows no model of the requested name. *)
Definition model_not_found (request : ChatRequest) : result pyval :=
  Raise (Exn (OtherError "ResponseError")
           ("model '" +:+ req_model request +:+ "' not found")).

(** [json.loads] on a text that is not JSON. *)
Definition loads_rejects (text : string) : result pyval :=
  Raise (Exn (OtherError "JSONDecodeError")
           "Expecting value: line 1 column 1 (char 0)").

Lemma backend_failure_wrapped_witness :
  run model_not_found dumps_empty_dict dumps_empty_dict loads_rejects false
    (ChatCompletion [ mkMessage USER "test" None ] "invalid-model"
       (PyInt 0) (PyBool false))
  = Raise (Exn ProviderError
             "Ollama completion failed: model 'invalid-model' not found").
Proof.
  apply (backend_failure_wrapped model_not_found dumps_empty_dict dumps_empty_dict
           loads_rejects false
           (ChatCompletion [ mkMessage USER "test" None ] "invalid-model"
              (PyInt 0) (PyBool false))
           (chat_request [ mkMessage USER "test" None ] "invalid-model"
              (PyInt 0) (PyBool false))
           (Exn (OtherError "ResponseError") "model 'invalid-model' not found"));
    reflexivity.
Defined.

(** A schema class whose JSON schema is the empty dictionary, and a reply
    that is prose. *)
Definition any_object : BaseModel :=
  {| model_json_schema := Ok (PyDict []);
     model_validate := λ _, Ok () |}.

Definition prose_response : pyval :=
  PyObj "ChatResponse"
    [ ("message", PyObj "Message"
         [ ("role", PyStr "assistant");
           ("content", PyStr "John is 25 and likes reading.") ]) ].

Lemma json_completion_rejects_invalid_witness :
  _get_json_completion (λ _, Ok prose_response) dumps_empty_dict loads_rejects
    [ mkMessage USER "Give me information about John" None ] "llama3.2"
    (Some any_object) (PyInt 0) None
  = Raise (Exn ProviderError
             ("Ollama JSON completion failed: Invalid JSON response: "
              +:+ "Expecting value: line 1 column 1 (char 0)")).
Proof.
  eapply (json_completion_rejects_invalid (λ _, Ok prose_response)
            dumps_empty_dict loads_rejects
            [ mkMessage USER "Give me information about John" None ] "llama3.2"
            any_object (PyInt 0) None _ prose_response
            "John is 25 and likes reading."
            (Exn (OtherError "JSONDecodeError")
               "Expecting value: line 1 column 1 (char 0)")).
  - reflexivity.
  - reflexivity.
  - reflexivity.
  - left. reflexivity.
Defined.

(** ** The messages of the JSON completion *)

Definition is_system (msg : Message) : bool :=
  bool_decide (role msg = SYSTEM).

Lemma foldl_json_step (schema_prompt : string) (messages : list Message)
    (st : list Message * string) :
  (foldl (json_step schema_prompt) st messages).1
  = st.1 ++ filter (λ msg, is_system msg = false) messages.
Proof.
  revert st. induction messages as [|msg messages IH]; intros st; simpl.
  - by rewrite app_nil_r.
  - rewrite IH. unfold json_step, is_system.
    rewrite filter_cons. case_decide as Hrole; simpl.
    + by rewrite bool_decide_eq_true_2.
    + rewrite bool_decide_eq_false_2 by done. simpl. by rewrite <- app_assoc.
Qed.

(** The translated sequence of the JSON completion starts with one system
    entry and has no other. *)
Lemma json_translation_one_system (schema_prompt : string) (messages : list Message) :
  ∃ system_content rest,
    _format_messages (json_messages schema_prompt messages)
    = {[ "role" := PyStr "system"; "content" := PyStr system_content ]} :: rest
    ∧ Forall (λ w, w !! "role" ≠ Some (PyStr "system")) rest.
Proof.
  unfold json_messages. rewrite _format_messages_map. simpl.
  eexists _, _. split; [reflexivity|].
  rewrite foldl_json_step. simpl.
  apply Forall_fmap, Forall_forall. intros msg Hin.
  apply list_elem_of_filter in Hin as [Hns _]. simpl.
  rewrite format_message_role. unfold is_system in Hns.
  apply bool_decide_eq_false_1 in Hns. by destruct (role msg).
Qed.

(** With a single system message among the caller's, the system entry is the
    caller's content, a blank line and the schema directive. *)
Lemma json_translation_single_system (schema_prompt : string)
    (before after : list Message) (msg : Message) :
  role msg = SYSTEM →
  Forall (λ m, role m ≠ SYSTEM) after →
  (json_messages schema_prompt (before ++ msg :: after)) !! 0
  = Some (mkMessage SYSTEM (content msg +:+ LF +:+ LF +:+ schema_prompt) None).
Proof.
  intros Hrole Hafter. unfold json_messages. simpl. do 2 f_equal.
  rewrite foldl_app. simpl.
  generalize (foldl (json_step schema_prompt) ([], schema_prompt) before).
  intros st. unfold json_step at 2. rewrite decide_True by done.
  generalize (st.1). intros acc.
  induction Hafter as [|m after Hm _ IH] in acc |- *; simpl; [done|].
  unfold json_step at 2. rewrite decide_False by done. simpl. apply IH.
Qed.

(** A system message followed by another one leaves no trace. *)
Lemma json_messages_earlier_system_lost (schema_prompt : string)
    (first later : Message) (between after : list Message) :
  role first = SYSTEM → role later = SYSTEM →
  json_messages schema_prompt (first :: between ++ later :: after)
  = json_messages schema_prompt (between ++ later :: after).
Proof.
  intros Hfirst Hlater. unfold json_messages. simpl.
  unfold json_step at 2 4. rewrite decide_True by done. simpl.
  rewrite !foldl_app. simpl.
  assert (∀ sc sc',
    (foldl (json_step schema_prompt) ([], sc) between).1
    = (foldl (json_step schema_prompt) ([], sc') between).1) as Hfst.
  { intros sc sc'. by rewrite !foldl_json_step. }
  set (st := foldl _ _ between). set (st' := foldl _ _ between).
  assert (json_step schema_prompt st later = json_step schema_prompt st' later)
    as ->; [|done].
  unfold json_step. rewrite !decide_True by done. f_equal. apply Hfst.
Qed.

(** C1: with two system messages among the caller's, the translated
    sequence of the JSON completion still has one system entry, at position
    0, but it carries the content of the later system message only: the
    content of the earlier one is replaced and lost. *)
Theorem json_completion_loses_earlier_system_content (schema_prompt : string) :
  let messages := [ mkMessage SYSTEM "Answer in French." None;
                    mkMessage SYSTEM "Be brief." None;
                    mkMessage USER "Who are you?" None ] in
  _format_messages (json_messages schema_prompt messages)
  = [ {[ "role" := PyStr "system";
         "content" := PyStr ("Be brief." +:+ LF +:+ LF +:+ schema_prompt) ]};
      {[ "role" := PyStr "user"; "content" := PyStr "Who are you?" ]} ]
  ∧ _format_messages (json_messages schema_prompt messages)
    = _format_messages (json_messages schema_prompt (tail messages)).
Proof. split; reflexivity. Qed.

(** ** The asynchronous plain chat completion *)

Lemma model_dump_tool (msg : Message) :
  role msg = TOOL → model_dump msg = format_message msg.
Proof. intros H. unfold model_dump, format_message. by rewrite H. Qed.

Lemma model_dump_not_tool (msg : Message) :
  role msg ≠ TOOL → model_dump msg ≠ format_message msg.
Proof.
  intros Hrole Heq. apply (f_equal (.!! "name")) in Heq.
  rewrite format_message_name, decide_False in Heq by done.
  unfold model_dump in Heq. by simplify_map_eq.
Qed.

(** C8: for a single user message the asynchronous plain chat completion
    sends the dump of the message, with a "name" key holding [None], where
    the synchronous one sends the translated entry with the keys "role" and
    "content" only: the two message sequences differ. *)
Theorem async_chat_sends_untranslated_messages (temperature stream : pyval) :
  let messages := [ mkMessage USER "Say 'Hello, World!'" None ] in
  req_messages (achat_request messages "llama3.2" temperature)
  = [ {[ "role" := PyStr "user"; "content" := PyStr "Say 'Hello, World!'";
         "name" := PyNone ]} ]
  ∧ req_messages (chat_request messages "llama3.2" temperature stream)
    = [ {[ "role" := PyStr "user"; "content" := PyStr "Say 'Hello, World!'" ]} ]
  ∧ req_messages (achat_request messages "llama3.2" temperature)
    ≠ req_messages (chat_request messages "llama3.2" temperature stream).
Proof.
  split_and!; [reflexivity | reflexivity |].
  intros Heq. apply (f_equal (λ ws, head ws ≫= (.!! "name"))) in Heq.
  vm_compute in Heq. discriminate.
Qed.

(** * Further properties of the adapter *)

(** ** Message translation, continued *)

(** Translating a conversation that was extended is extending the
    translation: [_format_messages] distributes over concatenation. *)
Theorem format_messages_app (earlier later : list Message) :
  _format_messages (earlier ++ later)
  = _format_messages earlier ++ _format_messages later.
Proof. rewrite !_format_messages_map. apply map_app. Qed.

Lemma format_message_without_name (msg : Message) :
  format_message (without_untranslated_name msg) = format_message msg.
Proof.
  unfold without_untranslated_name. case_decide as Hrole; [done|].
  unfold format_message. simpl. by destruct (role msg).
Qed.

Lemma mapM_wire_to_message (messages : list Message) :
  mapM wire_to_message (map format_message messages)
  = Some (map without_untranslated_name messages).
Proof.
  apply mapM_Some.
  induction messages as [|msg messages IH]; simpl; constructor; [|done].
  apply wire_to_message_format.
Qed.

(** Two message lists have the same translation exactly when they agree up
    to the names of the messages that are not tool messages: nothing else
    is lost on the way to the wire. *)
Theorem format_messages_eq_iff (xs ys : list Message) :
  _format_messages xs = _format_messages ys
  ↔ map without_untranslated_name xs = map without_untranslated_name ys.
Proof.
  rewrite !_format_messages_map. split; intros H.
  - apply (f_equal (mapM wire_to_message)) in H.
    rewrite !mapM_wire_to_message in H. by injection H.
  - apply (f_equal (map format_message)) in H.
    rewrite <- !list_fmap_compose in H.
    erewrite (list_fmap_ext _ format_message xs) in H
      by (intros; apply format_message_without_name).
    erewrite (list_fmap_ext _ format_message ys) in H
      by (intros; apply format_message_without_name).
    done.
Qed.

(** ** [str.strip], continued *)

Lemma all_space_app (l r : string) :
  all_space (l +:+ r) = all_space l && all_space r.
Proof.
  induction l as [|c l IH]; [done|].
  change (String c l +:+ r) with (String c (l +:+ r)). simpl.
  by rewrite IH, andb_assoc.
Qed.

Lemma lstrip_id (s : string) : starts_with_space s = false → lstrip s = s.
Proof. destruct s as [|c rest]; simpl; [done|]. by intros ->. Qed.

Lemma rstrip_id (s : string) : ends_with_space s = false → rstrip s = s.
Proof.
  induction s as [|c rest IH]; [done|]. intros H.
  destruct rest as [|k rest].
  - simpl in *. by rewrite H.
  - change (ends_with_space (String k rest) = false) in H.
    specialize (IH H). simpl in *. by rewrite IH.
Qed.

Lemma lstrip_all_space (s : string) : all_space s = true → lstrip s = "".
Proof.
  induction s as [|c rest IH]; simpl; [done|].
  intros [Hc Hrest]%andb_true_iff. rewrite Hc. by apply IH.
Qed.

(** A string is left as it is by [strip] exactly when it neither starts nor
    ends with white space. *)
Theorem strip_fixed_iff (s : string) :
  strip s = s ↔ starts_with_space s = false ∧ ends_with_space s = false.
Proof.
  split.
  - intros H. split.
    + rewrite <- H. apply strip_start.
    + rewrite <- H. apply strip_end.
  - intros [Hs He]. unfold strip. rewrite (lstrip_id s Hs). by apply rstrip_id.
Qed.

(** Stripping twice is stripping once. *)
Theorem strip_idempotent (s : string) : strip (strip s) = strip s.
Proof. apply strip_fixed_iff. split; [apply strip_start | apply strip_end]. Qed.

(** [strip] gives the empty string exactly on the strings made of white
    space only. *)
Theorem strip_empty_iff (s : string) : strip s = "" ↔ all_space s = true.
Proof.
  split.
  - intros H. destruct (lstrip_split s) as (l & Hl & Hlsp).
    destruct (rstrip_split (lstrip s)) as (r & Hr & Hrsp).
    unfold strip in H. rewrite H in Hr.
    rewrite Hl, Hr, !all_space_app, Hlsp, Hrsp. done.
  - intros H. unfold strip. by rewrite lstrip_all_space.
Qed.

(** A content that is white space only is extracted as the empty string,
    just as an absent content is; any other string content is extracted as
    a string that is not empty. *)
Theorem extract_content_empty_iff (response message : pyval) (s : string) :
  attr_of response "message" = Some message →
  attr_of message "content" = Some (PyStr s) →
  (_extract_content response = Ok "" ↔ all_space s = true).
Proof.
  intros Hm Hc.
  assert (_extract_content response = Ok (strip s)) as ->.
  { unfold _extract_content, hasattr, getattr. rewrite Hm. simpl. by rewrite Hc. }
  rewrite <- strip_empty_iff. split; [by intros [= ->] | by intros ->].
Qed.

Lemma extract_content_empty_iff_witness :
  _extract_content
    (PyObj "ChatResponse"
       [ ("message", PyObj "Message"
            [ ("role", PyStr "assistant"); ("content", PyStr (" " +:+ LF)) ]) ])
  = Ok "".
Proof.
  apply (extract_content_empty_iff _
           (PyObj "Message"
              [ ("role", PyStr "assistant"); ("content", PyStr (" " +:+ LF)) ])
           (" " +:+ LF)); reflexivity.
Defined.

(** ** Tool-call extraction, continued *)

(** The dictionary built for the invocation at position [i]. *)
Definition call_entry (i : nat) (tool_call function_name : pyval) (dumped : string)
  : pyval :=
  PyDict [ ("id", getattr_default tool_call "id" (PyStr ("call_" +:+ pretty i)));
           ("type", PyStr "function");
           ("function", PyDict [ ("name", function_name);
                                 ("arguments", PyStr dumped) ]) ].

Section ToolCallEntries.

Variable json_dumps : pyval → result string.
Variable json_dumps_indent2 : pyval → result string.
Variable debug : bool.

Local Abbreviation loop := (extract_loop json_dumps json_dumps_indent2 debug).
Local Abbreviation extract :=
  (_extract_tool_calls json_dumps json_dumps_indent2 debug).

Lemma extract_loop_entries (pending acc calls : list pyval) :
  loop pending acc = Ok calls →
  ∃ new, calls = acc ++ new
         ∧ ∀ i raw, pending !! i = Some raw →
             ∃ function function_name arguments dumped,
               attr_of raw "function" = Some function
               ∧ attr_of function "name" = Some function_name
               ∧ attr_of function "arguments" = Some arguments
               ∧ json_dumps arguments = Ok dumped
               ∧ new !! i
                 = Some (call_entry (length acc + i) raw function_name dumped).
Proof.
  revert acc. induction pending as [|tool_call rest IH]; intros acc H; simpl in H.
  - injection H as <-. exists []. by rewrite app_nil_r.
  - do 6 bind_inv H.
    match type of H with context [acc ++ [?e]] => set (entry := e) in * end.
    apply IH in H as (new & -> & Hnew).
    exists (entry :: new). split; [by rewrite <- app_assoc|].
    unfold getattr in *.
    destruct (attr_of tool_call "function") as [f|] eqn:Hf; [|done].
    injection Ha as <-. injection Ha1 as <-.
    destruct (attr_of f "name") as [fname|] eqn:Hname; [|done].
    destruct (attr_of f "arguments") as [args|] eqn:Hargs; [|done].
    injection Ha0 as <-. injection Ha2 as <-.
    intros [|i] raw Hi; simpl in Hi.
    + injection Hi as <-. exists f, fname, args, a3.
      split_and!; try done. simpl. by rewrite Nat.add_0_r.
    + destruct (Hnew i raw Hi) as (f' & n' & a' & d' & ? & ? & ? & ? & Hcall).
      exists f', n', a', d'. split_and!; try done. simpl. rewrite Hcall.
      rewrite length_app. simpl.
      by replace (length acc + 1 + i) with (length acc + S i) by lia.
Qed.

(** The extracted list follows the reported invocations one for one: the
    call at position [i] is of type "function", names the callee of the
    i-th invocation, carries its arguments as the text [json.dumps] gives,
    and keeps a backend-supplied id as it is. *)
Theorem extracted_calls_follow_reported (response : pyval)
    (pending calls : list pyval) :
  reported_tool_calls response = Ok pending →
  extract response = Ok (Some calls) →
  length calls = length pending
  ∧ ∀ i raw, pending !! i = Some raw →
      ∃ function function_name arguments dumped,
        attr_of raw "function" = Some function
        ∧ attr_of function "name" = Some function_name
        ∧ attr_of function "arguments" = Some arguments
        ∧ json_dumps arguments = Ok dumped
        ∧ calls !! i = Some (call_entry i raw function_name dumped).
Proof.
  intros Hrep H.
  rewrite (extract_tool_calls_reported _ _ _ _ _ Hrep) in H. bind_inv H.
  assert (a = calls) as -> by (destruct a; simpl in H; congruence).
  destruct (extract_loop_spec _ _ _ _ _ _ Ha) as (new & Hnew & Hlen & _).
  simpl in Hnew. subst new. split; [done|].
  destruct (extract_loop_entries _ _ _ Ha) as (new & Hnew & Hentries).
  simpl in Hnew. subst new. exact Hentries.
Qed.

(** An id the backend supplies can be the very id synthesized for another
    invocation of the response: the ids of one response are then not
    distinct. *)
Theorem supplied_id_can_collide (response : pyval) (pending calls : list pyval)
    (i j : nat) (raw_i raw_j : pyval) :
  reported_tool_calls response = Ok pending →
  extract response = Ok (Some calls) →
  pending !! i = Some raw_i → hasattr raw_i "id" = false →
  pending !! j = Some raw_j →
  attr_of raw_j "id" = Some (PyStr ("call_" +:+ pretty i)) →
  ∃ call_i call_j,
    calls !! i = Some call_i ∧ calls !! j = Some call_j
    ∧ entry_id call_i = Some (PyStr ("call_" +:+ pretty i))
    ∧ entry_id call_j = Some (PyStr ("call_" +:+ pretty i)).
Proof.
  intros Hrep H Hi Hidi Hj Hidj.
  rewrite (extract_tool_calls_reported _ _ _ _ _ Hrep) in H. bind_inv H.
  assert (a = calls) as -> by (destruct a; simpl in H; congruence).
  destruct (extract_loop_spec _ _ _ _ _ _ Ha) as (new & Hnew & _ & Hids).
  simpl in Hnew. subst new.
  destruct (Hids i raw_i Hi) as (ci & Hci & Hei).
  destruct (Hids j raw_j Hj) as (cj & Hcj & Hej).
  exists ci, cj. split_and!; try done.
  - by rewrite Hei, getattr_default_absent.
  - rewrite Hej. unfold getattr_default. by rewrite Hidj.
Qed.

Lemma extract_loop_prefix (before rest acc : list pyval) :
  Forall (convertible json_dumps) before →
  (debug = true → ∀ v, ∃ s, json_dumps_indent2 v = Ok s) →
  ∃ acc', loop (before ++ rest) acc = loop rest acc'.
Proof.
  intros Hall Hdebug. revert acc.
  induction Hall as [|tool_call before Hc _ IH]; intros acc; simpl.
  - by exists acc.
  - destruct Hc as (f & fname & args & dumped & Hf & Hname & Hargs & Hdump).
    unfold getattr. rewrite Hf. simpl. rewrite Hname. simpl. rewrite Hargs.
    simpl. rewrite Hdump. simpl.
    destruct debug eqn:Hd.
    + destruct (Hdebug eq_refl (call_entry (length acc) tool_call fname dumped))
        as [s Hs].
      unfold call_entry in Hs. rewrite Hs. simpl. apply IH.
    + simpl. apply IH.
Qed.

(** The extraction is all or nothing: at the first reported invocation
    without a [function] it raises [AttributeError], and the calls converted
    before it are not returned. *)
Theorem extract_tool_calls_missing_function (response : pyval)
    (before after : list pyval) (bad : pyval) :
  reported_tool_calls response = Ok (before ++ bad :: after) →
  Forall (convertible json_dumps) before →
  (debug = true → ∀ v, ∃ s, json_dumps_indent2 v = Ok s) →
  attr_of bad "function" = None →
  extract response = Raise (no_attribute bad "function").
Proof.
  intros Hrep Hall Hdebug Hbad.
  rewrite (extract_tool_calls_reported _ _ _ _ _ Hrep).
  destruct (extract_loop_prefix before (bad :: after) [] Hall Hdebug) as [acc' ->].
  simpl. unfold getattr. by rewrite Hbad.
Qed.

End ToolCallEntries.

Definition response_with_calls (calls : list pyval) : pyval :=
  PyObj "ChatResponse"
    [ ("model", PyStr "llama3.2");
      ("created_at", PyStr "2025-01-01T00:00:00Z");
      ("message", PyObj "Message"
         [ ("role", PyStr "assistant");
           ("content", PyStr "");
           ("tool_calls", PyList calls) ]) ].

(** An invocation of [simple_tool] to which the backend gave the id
    "call_0". *)
Definition simple_tool_call_with_id : pyval :=
  PyObj "ToolCall"
    [ ("id", PyStr "call_0");
      ("function", PyObj "Function"
         [ ("name", PyStr "simple_tool"); ("arguments", PyDict []) ]) ].

Lemma extracted_calls_follow_reported_witness :
  ∃ calls,
    _extract_tool_calls dumps_empty_dict dumps_empty_dict false two_calls_response
    = Ok (Some calls)
    ∧ length calls = 2
    ∧ calls !! 1 = Some (call_entry 1 simple_tool_call (PyStr "simple_tool") "{}").
Proof.
  eexists. split; [reflexivity|].
  destruct (extracted_calls_follow_reported dumps_empty_dict dumps_empty_dict false
              two_calls_response [simple_tool_call; simple_tool_call] _
              eq_refl eq_refl) as [Hlen Hcalls].
  split; [exact Hlen|].
  destruct (Hcalls 1 simple_tool_call eq_refl)
    as (f & fname & args & dumped & Hf & Hname & Hargs & Hdump & Hcall).
  injection Hf as <-. injection Hname as <-. injection Hargs as <-.
  injection Hdump as <-. exact Hcall.
Defined.

Lemma supplied_id_can_collide_witness :
  ∃ call_0 call_1,
    [ call_entry 0 simple_tool_call (PyStr "simple_tool") "{}";
      call_entry 1 simple_tool_call_with_id (PyStr "simple_tool") "{}" ] !! 0
    = Some call_0
    ∧ [ call_entry 0 simple_tool_call (PyStr "simple_tool") "{}";
        call_entry 1 simple_tool_call_with_id (PyStr "simple_tool") "{}" ] !! 1
      = Some call_1
    ∧ entry_id call_0 = Some (PyStr ("call_" +:+ pretty 0))
    ∧ entry_id call_1 = Some (PyStr ("call_" +:+ pretty 0)).
Proof.
  apply (supplied_id_can_collide dumps_empty_dict dumps_empty_dict false
           (response_with_calls [simple_tool_call; simple_tool_call_with_id])
           [simple_tool_call; simple_tool_call_with_id] _
           0 1 simple_tool_call simple_tool_call_with_id); reflexivity.
Defined.

Lemma extract_tool_calls_missing_function_witness :
  _extract_tool_calls dumps_empty_dict dumps_empty_dict false
    (response_with_calls [simple_tool_call; PyObj "ToolCall" []])
  = Raise (Exn AttributeError "'ToolCall' object has no attribute 'function'").
Proof.
  apply (extract_tool_calls_missing_function dumps_empty_dict dumps_empty_dict false
           (response_with_calls [simple_tool_call; PyObj "ToolCall" []])
           [simple_tool_call] [] (PyObj "ToolCall" [])).
  - reflexivity.
  - repeat constructor. apply simple_tool_call_convertible.
  - discriminate.
  - reflexivity.
Defined.

(** ** The messages of the JSON completion, continued *)

(** The content of the system message the JSON completion sends: the schema
    directive, after the content of the caller's last system message when
    there is one. *)
Definition merged_system_content (schema_prompt : string) (messages : list Message)
  : string :=
  match last (filter (λ msg, is_system msg = true) messages) with
  | Some msg => content msg +:+ LF +:+ LF +:+ schema_prompt
  | None => schema_prompt
  end.

Lemma foldl_json_step_content (schema_prompt : string) (messages : list Message) :
  (foldl (json_step schema_prompt) ([], schema_prompt) messages).2
  = merged_system_content schema_prompt messages.
Proof.
  unfold merged_system_content.
  induction messages as [|msg messages IH] using rev_ind; [done|].
  rewrite foldl_app, filter_app. simpl. unfold json_step at 1.
  rewrite filter_cons, filter_nil.
  case_decide as Hrole; simpl.
  - rewrite decide_True by (by apply bool_decide_eq_true_2).
    by rewrite last_snoc.
  - rewrite decide_False
      by (unfold is_system; by rewrite bool_decide_eq_false_2).
    by rewrite app_nil_r.
Qed.

(** What the JSON completion sends: one system entry, then the translation
    of the caller's messages that are not system messages, in their order.
    The system entry holds the schema directive alone when the caller gave
    no system message, and otherwise the content of the caller's last
    system message, a blank line and the directive. *)
Theorem json_translation (schema_prompt : string) (messages : list Message) :
  _format_messages (json_messages schema_prompt messages)
  = {[ "role" := PyStr "system";
       "content" := PyStr (merged_system_content schema_prompt messages) ]}
    :: _format_messages (filter (λ msg, is_system msg = false) messages).
Proof.
  unfold json_messages. rewrite !_format_messages_map. simpl.
  rewrite foldl_json_step, foldl_json_step_content. simpl.
  f_equal.
Qed.

(** ** The synchronous completion operations, continued *)

Section CompletionResults.

Variable client_chat : ChatRequest → result pyval.
Variable json_dumps : pyval → result string.
Variable json_dumps_indent2 : pyval → result string.
Variable json_loads : string → result pyval.
Variable debug : bool.

Local Abbreviation run' :=
  (run client_chat json_dumps json_dumps_indent2 json_loads debug).

Definition is_tool_completion (call : sync_call) : bool :=
  match call with
  | ToolCompletion _ _ _ _ _ _ => true
  | _ => false
  end.

(** A [ModelResponse] that a synchronous operation returns comes from one
    backend call that succeeded: it keeps the raw response as it is, its
    usage and content are extracted from that response, and it reports tool
    calls only if the operation is the tool completion. *)
Theorem returned_response_from_backend (call : sync_call) (r : ModelResponse) :
  run' call = Ok r →
  ∃ request response,
    backend_request json_dumps_indent2 call = Ok request
    ∧ client_chat request = Ok response
    ∧ raw_response r = response
    ∧ usage r = _extract_usage response
    ∧ _extract_content response = Ok (resp_content r)
    ∧ (is_tool_completion call = false → tool_calls r = None).
Proof.
  destruct call; simpl; intros H; apply reraise_Ok in H.
  - do 2 bind_inv H. injection H as <-. by eexists _, _.
  - do 4 bind_inv H. injection H as <-. exists (tool_request messages model a temperature), a0.
    rewrite Ha. by split_and!.
  - do 3 bind_inv H. injection H as <-.
    exists (json_request messages model a temperature), a0. rewrite Ha.
    split_and!; try done. simpl.
    unfold validated_content in Ha1. apply reraise_Ok in Ha1.
    do 4 bind_inv Ha1. by injection Ha1 as <-.
Qed.

(** A response that is no object with a [message] and carries no token
    counts (a plain dictionary, for one) makes the plain chat completion
    return an empty content with a usage of zeros, not an error. *)
Theorem chat_completion_shapeless_response (messages : list Message)
    (model : string) (temperature stream : pyval) (response : pyval) :
  client_chat (chat_request messages model temperature stream) = Ok response →
  attr_of response "message" = None →
  attr_of response "prompt_tokens" = None →
  attr_of response "completion_tokens" = None →
  attr_of response "total_tokens" = None →
  _get_chat_completion client_chat messages model temperature stream
  = Ok {| resp_content := "";
          raw_response := response;
          usage := mkTokenUsage (PyInt 0) (PyInt 0) (PyInt 0);
          tool_calls := None |}.
Proof.
  intros Hchat Hm Hp Hc Ht. unfold _get_chat_completion. rewrite Hchat. simpl.
  rewrite (extract_content_no_message _ Hm). simpl.
  unfold _extract_usage, getattr_default. by rewrite Hp, Hc, Ht.
Qed.

(** The tool completion on a reply with one or more invocations that can be
    converted returns them all, along with the stripped content. *)
Theorem tool_completion_returns_calls (messages : list Message) (model : string)
    (tools : list BaseTool) (temperature json_temperature : pyval)
    (max_tokens : option Z) (schemas : list pyval) (response : pyval)
    (pending : list pyval) (text : string) :
  tool_schemas tools = Ok schemas →
  client_chat (tool_request messages model schemas temperature) = Ok response →
  reported_tool_calls response = Ok pending →
  pending ≠ [] →
  Forall (convertible json_dumps) pending →
  (debug = true → ∀ v, ∃ s, json_dumps_indent2 v = Ok s) →
  _extract_content response = Ok text →
  ∃ calls,
    _get_tool_completion client_chat json_dumps json_dumps_indent2 debug
      messages model tools temperature json_temperature max_tokens
    = Ok {| resp_content := text;
            raw_response := response;
            usage := _extract_usage response;
            tool_calls := Some calls |}
    ∧ length calls = length pending.
Proof.
  intros Hschemas Hchat Hrep Hne Hall Hdebug Htext.
  destruct (extract_tool_calls_some_reported _ _ _ _ _ Hrep Hne Hall Hdebug)
    as (calls & Hcalls & _ & Hlen).
  exists calls. split; [|done].
  unfold _get_tool_completion. rewrite Hschemas. simpl. rewrite Hchat. simpl.
  rewrite Hcalls. simpl. by rewrite Htext.
Qed.

(** When [get_schema] of a tool raises, the tool completion fails with a
    [ProviderError] carrying that message, whatever the backend would do:
    the backend is not called. *)
Theorem tool_completion_schema_failure (messages : list Message) (model : string)
    (before after : list BaseTool) (tool : BaseTool)
    (temperature json_temperature : pyval) (max_tokens : option Z) (e : exn) :
  Forall (λ t, ∃ schema, get_schema t = Ok schema) before →
  get_schema tool = Raise e →
  _get_tool_completion client_chat json_dumps json_dumps_indent2 debug
    messages model (before ++ tool :: after) temperature json_temperature max_tokens
  = Raise (Exn ProviderError ("Ollama tool completion failed: " +:+ exn_msg e)).
Proof.
  intros Hbefore Htool. unfold _get_tool_completion.
  assert (tool_schemas (before ++ tool :: after) = Raise e) as ->; [|done].
  induction Hbefore as [|t before [schema Ht] _ IH]; simpl.
  - by rewrite Htool.
  - rewrite Ht. simpl. by rewrite IH.
Qed.

(** When the schema directive cannot be built (no schema class, or
    [model_json_schema] or [json.dumps] raises), the JSON completion fails
    with a [ProviderError] carrying that message, whatever the backend would
    do: the backend is not called. *)
Theorem json_completion_schema_failure (messages : list Message) (model : string)
    (schema : option BaseModel) (temperature : pyval) (max_tokens : option Z)
    (e : exn) :
  schema_prompt_of json_dumps_indent2 schema = Raise e →
  _get_json_completion client_chat json_dumps_indent2 json_loads
    messages model schema temperature max_tokens
  = Raise (Exn ProviderError ("Ollama JSON completion failed: " +:+ exn_msg e)).
Proof. intros H. unfold _get_json_completion. by rewrite H. Qed.

(** The JSON completion on a reply whose content parses and validates
    returns that content, stripped, and no tool calls. *)
Theorem json_completion_accepts_valid (messages : list Message) (model : string)
    (cls : BaseModel) (temperature : pyval) (max_tokens : option Z)
    (schema_prompt : string) (response : pyval) (text : string) (data : pyval) :
  schema_prompt_of json_dumps_indent2 (Some cls) = Ok schema_prompt →
  client_chat (json_request messages model schema_prompt temperature) = Ok response →
  _extract_content response = Ok text →
  json_loads text = Ok data →
  model_validate cls data = Ok () →
  _get_json_completion client_chat json_dumps_indent2 json_loads
    messages model (Some cls) temperature max_tokens
  = Ok {| resp_content := text;
          raw_response := response;
          usage := _extract_usage response;
          tool_calls := None |}.
Proof.
  intros Hprompt Hchat Htext Hloads Hval.
  unfold _get_json_completion. rewrite Hprompt. simpl. rewrite Hchat. simpl.
  unfold validated_content. rewrite Htext. simpl. rewrite Hloads. simpl.
  by rewrite Hval.
Qed.

(** A reply whose content cannot be extracted (a content that is [None],
    for one) is reported by the JSON completion as an invalid JSON
    response. *)
Theorem json_completion_unextractable_content (messages : list Message)
    (model : string) (cls : BaseModel) (temperature : pyval)
    (max_tokens : option Z) (schema_prompt : string) (response : pyval) (e : exn) :
  schema_prompt_of json_dumps_indent2 (Some cls) = Ok schema_prompt →
  client_chat (json_request messages model schema_prompt temperature) = Ok response →
  _extract_content response = Raise e →
  _get_json_completion client_chat json_dumps_indent2 json_loads
    messages model (Some cls) temperature max_tokens
  = Raise (Exn ProviderError
             ("Ollama JSON completion failed: "
              +:+ "Invalid JSON response: " +:+ exn_msg e)).
Proof.
  intros Hprompt Hchat Htext.
  unfold _get_json_completion. rewrite Hprompt. simpl. rewrite Hchat. simpl.
  unfold validated_content. by rewrite Htext.
Qed.

End CompletionResults.

(** [json.loads] as far as the text of the empty object goes. *)
Definition loads_empty_object (text : string) : result pyval :=
  if decide (text = "{}") then Ok (PyDict []) else loads_rejects text.

(** A reply in the shape of a dictionary, as older client libraries give. *)
Definition dict_response : pyval :=
  PyDict [ ("model", PyStr "llama3.2");
           ("message", PyDict [ ("role", PyStr "assistant");
                                ("content", PyStr "Hello, World!") ]) ].

Definition object_response (text : pyval) : pyval :=
  PyObj "ChatResponse"
    [ ("model", PyStr "llama3.2");
      ("created_at", PyStr "2025-01-01T00:00:00Z");
      ("message", PyObj "Message"
         [ ("role", PyStr "assistant"); ("content", text) ]) ].

Definition failing_tool : BaseTool :=
  {| get_schema := Raise (Exn (OtherError "ValueError") "no parameters model") |}.

Definition simple_tool : BaseTool :=
  {| get_schema := Ok (PyDict [ ("name", PyStr "simple_tool") ]) |}.

Lemma returned_response_from_backend_witness :
  ∃ request response,
    backend_request dumps_empty_dict
      (ChatCompletion [ mkMessage USER "Say 'Hello, World!'" None ] "llama3.2"
         (PyInt 0) (PyBool false))
    = Ok request
    ∧ (Ok no_calls_response : result pyval) = Ok response
    ∧ no_calls_response = response
    ∧ _extract_usage no_calls_response = _extract_usage response
    ∧ _extract_content response = Ok "Hello, World!"
    ∧ (false = false → @None (list pyval) = None).
Proof.
  apply (returned_response_from_backend (λ _, Ok no_calls_response)
           dumps_empty_dict dumps_empty_dict loads_rejects false
           (ChatCompletion [ mkMessage USER "Say 'Hello, World!'" None ] "llama3.2"
              (PyInt 0) (PyBool false))
           {| resp_content := "Hello, World!";
              raw_response := no_calls_response;
              usage := _extract_usage no_calls_response;
              tool_calls := None |}).
  reflexivity.
Defined.

Lemma chat_completion_shapeless_response_witness :
  _get_chat_completion (λ _, Ok dict_response)
    [ mkMessage USER "Say 'Hello, World!'" None ] "llama3.2" (PyInt 0) (PyBool false)
  = Ok {| resp_content := "";
          raw_response := dict_response;
          usage := mkTokenUsage (PyInt 0) (PyInt 0) (PyInt 0);
          tool_calls := None |}.
Proof.
  apply (chat_completion_shapeless_response (λ _, Ok dict_response)); reflexivity.
Defined.

Lemma tool_completion_returns_calls_witness :
  ∃ calls,
    _get_tool_completion (λ _, Ok two_calls_response)
      dumps_empty_dict dumps_empty_dict false
      [ mkMessage USER "Use the simple tool to say hello" None ] "llama3.2"
      [simple_tool] (PyInt 0) (PyInt 0) None
    = Ok {| resp_content := "";
            raw_response := two_calls_response;
            usage := _extract_usage two_calls_response;
            tool_calls := Some calls |}
    ∧ length calls = 2.
Proof.
  apply (tool_completion_returns_calls (λ _, Ok two_calls_response)
           dumps_empty_dict dumps_empty_dict false
           [ mkMessage USER "Use the simple tool to say hello" None ] "llama3.2"
           [simple_tool] (PyInt 0) (PyInt 0) None
           [ PyDict [ ("name", PyStr "simple_tool") ] ] two_calls_response
           [simple_tool_call; simple_tool_call] "").
  - reflexivity.
  - reflexivity.
  - reflexivity.
  - discriminate.
  - repeat constructor; apply simple_tool_call_convertible.
  - discriminate.
  - reflexivity.
Defined.

Lemma tool_completion_schema_failure_witness :
  _get_tool_completion (λ _, Ok two_calls_response)
    dumps_empty_dict dumps_empty_dict false
    [ mkMessage USER "Use the simple tool to say hello" None ] "llama3.2"
    ([simple_tool] ++ failing_tool :: []) (PyInt 0) (PyInt 0) None
  = Raise (Exn ProviderError "Ollama tool completion failed: no parameters model").
Proof.
  apply (tool_completion_schema_failure (λ _, Ok two_calls_response)
           dumps_empty_dict dumps_empty_dict false
           [ mkMessage USER "Use the simple tool to say hello" None ] "llama3.2"
           [simple_tool] [] failing_tool (PyInt 0) (PyInt 0) None
           (Exn (OtherError "ValueError") "no parameters model")).
  - repeat constructor. by eexists.
  - reflexivity.
Defined.

Lemma json_completion_schema_failure_witness :
  _get_json_completion (λ _, Ok prose_response) dumps_empty_dict loads_rejects
    [ mkMessage USER "Give me information about John" None ] "llama3.2"
    None (PyInt 0) None
  = Raise (Exn ProviderError
             ("Ollama JSON completion failed: "
              +:+ "'NoneType' object has no attribute 'model_json_schema'")).
Proof.
  apply (json_completion_schema_failure (λ _, Ok prose_response)
           dumps_empty_dict loads_rejects
           [ mkMessage USER "Give me information about John" None ] "llama3.2"
           None (PyInt 0) None (no_attribute PyNone "model_json_schema")).
  reflexivity.
Defined.

Lemma json_completion_accepts_valid_witness :
  _get_json_completion (λ _, Ok (object_response (PyStr (" {}" +:+ LF))))
    dumps_empty_dict loads_empty_object
    [ mkMessage USER "Give me an empty object" None ] "llama3.2"
    (Some any_object) (PyInt 0) None
  = Ok {| resp_content := "{}";
          raw_response := object_response (PyStr (" {}" +:+ LF));
          usage := _extract_usage (object_response (PyStr (" {}" +:+ LF)));
          tool_calls := None |}.
Proof.
  eapply (json_completion_accepts_valid
            (λ _, Ok (object_response (PyStr (" {}" +:+ LF))))
            dumps_empty_dict loads_empty_object
            [ mkMessage USER "Give me an empty object" None ] "llama3.2"
            any_object (PyInt 0) None _
            (object_response (PyStr (" {}" +:+ LF))) "{}" (PyDict []));
    reflexivity.
Defined.

Lemma json_completion_unextractable_content_witness :
  _get_json_completion (λ _, Ok (object_response PyNone))
    dumps_empty_dict loads_empty_object
    [ mkMessage USER "Give me an empty object" None ] "llama3.2"
    (Some any_object) (PyInt 0) None
  = Raise (Exn ProviderError
             ("Ollama JSON completion failed: Invalid JSON response: "
              +:+ "'NoneType' object has no attribute 'strip'")).
Proof.
  eapply (json_completion_unextractable_content
            (λ _, Ok (object_response PyNone))
            dumps_empty_dict loads_empty_object
            [ mkMessage USER "Give me an empty object" None ] "llama3.2"
            any_object (PyInt 0) None _ (object_response PyNone)
            (no_attribute PyNone "strip"));
    reflexivity.
Defined.

(** ** [_response_to_dict], continued *)

(** A reported invocation [_response_to_dict] can convert: it has an id, a
    type and a function with a name and arguments. *)
Definition complete_call (tool_call : pyval) : Prop :=
  ∃ call_id call_type function function_name arguments,
    attr_of tool_call "id" = Some call_id
    ∧ attr_of tool_call "type" = Some call_type
    ∧ attr_of tool_call "function" = Some function
    ∧ attr_of function "name" = Some function_name
    ∧ attr_of function "arguments" = Some arguments.

Lemma calls_to_dicts_length (pending dicts : list pyval) :
  calls_to_dicts pending = Ok dicts → length dicts = length pending.
Proof.
  revert dicts. induction pending as [|tool_call rest IH]; intros dicts H; simpl in H.
  - by injection H as <-.
  - do 7 bind_inv H. injection H as <-. simpl. f_equal. by apply IH.
Qed.

Lemma calls_to_dicts_missing_id (before after : list pyval) (bad : pyval) :
  Forall complete_call before →
  attr_of bad "id" = None →
  calls_to_dicts (before ++ bad :: after) = Raise (no_attribute bad "id").
Proof.
  intros Hall Hbad. induction Hall as [|tool_call before Hc _ IH]; simpl.
  - unfold getattr. by rewrite Hbad.
  - destruct Hc as (i & t & f & n & a & Hi & Ht & Hf & Hn & Ha).
    unfold getattr at 1 2 3 4 5 6. rewrite Hi, Ht, Hf. simpl.
    rewrite Hn, Ha. simpl. by rewrite IH.
Qed.

Lemma truthy_iterate_not_empty (v : pyval) (pending : list pyval) :
  truthy v = true → iterate v = Ok pending → pending ≠ [].
Proof.
  destruct v as [| | |s|xs|items| ]; simpl; try done.
  - destruct s; [done|]. by intros _ [= <-].
  - destruct xs; [done|]. by intros _ [= <-].
  - destruct items; [done|]. by intros _ [= <-].
Qed.

(** The dictionary [_response_to_dict] returns holds the role, the content
    (not stripped), the model and the creation time of the response as they
    are, and under "tool_calls" either [None] or a list that is not empty,
    with one dictionary for each reported invocation. *)
Theorem response_to_dict_shape (response d : pyval) :
  _response_to_dict response = Ok d →
  ∃ message message_role message_content raw_calls calls model created_at,
    attr_of response "message" = Some message
    ∧ attr_of message "role" = Some message_role
    ∧ attr_of message "content" = Some message_content
    ∧ attr_of message "tool_calls" = Some raw_calls
    ∧ attr_of response "model" = Some model
    ∧ attr_of response "created_at" = Some created_at
    ∧ d = PyDict [ ("message", PyDict [ ("role", message_role);
                                        ("content", message_content);
                                        ("tool_calls", calls) ]);
                   ("model", model);
                   ("created_at", created_at) ]
    ∧ (truthy raw_calls = false ∧ calls = PyNone
       ∨ ∃ pending dicts,
           iterate raw_calls = Ok pending
           ∧ calls = PyList dicts
           ∧ dicts ≠ []
           ∧ length dicts = length pending).
Proof.
  unfold _response_to_dict, getattr. intros H.
  destruct (attr_of response "message") as [message|] eqn:Hm; [|done]. simpl in H.
  destruct (attr_of message "role") as [r|] eqn:Hr; [|done]. simpl in H.
  destruct (attr_of message "content") as [c|] eqn:Hc; [|done]. simpl in H.
  destruct (attr_of message "tool_calls") as [raw|] eqn:Ht; [|done]. simpl in H.
  bind_inv H.
  destruct (attr_of response "model") as [model|] eqn:Hmodel; [|done]. simpl in H.
  destruct (attr_of response "created_at") as [created|] eqn:Hcr; [|done].
  injection H as <-.
  exists message, r, c, raw, a, model, created. split_and!; try done.
  destruct (truthy raw) eqn:Htruthy.
  - right. do 2 bind_inv Ha. injection Ha as <-.
    exists a0, a1. pose proof (calls_to_dicts_length _ _ Ha1) as Hlen.
    split_and!; try done.
    pose proof (truthy_iterate_not_empty _ _ Htruthy Ha0) as Hne.
    destruct a1; [|done]. by destruct a0.
  - left. by injection Ha as <-.
Qed.

(** [_response_to_dict] needs an id on every invocation: at the first one
    without it raises [AttributeError], where [_extract_tool_calls]
    synthesizes an id. *)
Theorem response_to_dict_missing_call_id (response message : pyval)
    (message_role message_content : pyval) (before after : list pyval) (bad : pyval) :
  attr_of response "message" = Some message →
  attr_of message "role" = Some message_role →
  attr_of message "content" = Some message_content →
  attr_of message "tool_calls" = Some (PyList (before ++ bad :: after)) →
  Forall complete_call before →
  attr_of bad "id" = None →
  _response_to_dict response = Raise (no_attribute bad "id").
Proof.
  intros Hm Hr Hc Ht Hall Hbad. unfold _response_to_dict, getattr.
  rewrite Hm. simpl. rewrite Hr, Hc, Ht.
  assert (truthy (PyList (before ++ bad :: after)) = true) as Htruthy
    by (by destruct before).
  cbv beta iota delta [mbind result_bind]. rewrite !Htruthy. simpl.
  by rewrite (calls_to_dicts_missing_id _ _ _ Hall Hbad).
Qed.

Lemma response_to_dict_shape_witness :
  ∃ message message_role message_content raw_calls calls model created_at,
    attr_of no_calls_response "message" = Some message
    ∧ attr_of message "role" = Some message_role
    ∧ attr_of message "content" = Some message_content
    ∧ attr_of message "tool_calls" = Some raw_calls
    ∧ attr_of no_calls_response "model" = Some model
    ∧ attr_of no_calls_response "created_at" = Some created_at
    ∧ PyDict [ ("message", PyDict [ ("role", PyStr "assistant");
                                    ("content", PyStr "Hello, World!");
                                    ("tool_calls", PyNone) ]);
               ("model", PyStr "llama3.2");
               ("created_at", PyStr "2025-01-01T00:00:00Z") ]
      = PyDict [ ("message", PyDict [ ("role", message_role);
                                      ("content", message_content);
                                      ("tool_calls", calls) ]);
                 ("model", model);
                 ("created_at", created_at) ]
    ∧ (truthy raw_calls = false ∧ calls = PyNone
       ∨ ∃ pending dicts,
           iterate raw_calls = Ok pending
           ∧ calls = PyList dicts
           ∧ dicts ≠ []
           ∧ length dicts = length pending).
Proof.
  apply (response_to_dict_shape no_calls_response). reflexivity.
Defined.

Lemma response_to_dict_missing_call_id_witness :
  _response_to_dict two_calls_response
  = Raise (Exn AttributeError "'ToolCall' object has no attribute 'id'").
Proof.
  apply (response_to_dict_missing_call_id two_calls_response
           (PyObj "Message"
              [ ("role", PyStr "assistant");
                ("content", PyStr "");
                ("tool_calls", PyList [simple_tool_call; simple_tool_call]) ])
           (PyStr "assistant") (PyStr "") [] [simple_tool_call] simple_tool_call);
    try reflexivity.
  constructor.
Defined.

(** ** The asynchronous plain chat completion, continued *)

(** The asynchronous client is set up on the first call only: with the
    client in place the outcome does not depend on the set-up, and a call
    that starts without a client and sets one up gives that same outcome
    and leaves the client in place. *)
Theorem async_client_set_up_once
    (async_client_chat : ChatRequest → result pyval)
    (import_AsyncClient AsyncClient import' AsyncClient' : result unit)
    (messages : list Message) (model : string) (temperature : pyval)
    (max_tokens : option Z) :
  import_AsyncClient = Ok () →
  AsyncClient = Ok () →
  _aget_chat_completion async_client_chat import_AsyncClient AsyncClient
    false messages model temperature max_tokens
  = _aget_chat_completion async_client_chat import' AsyncClient'
      true messages model temperature max_tokens
  ∧ (_aget_chat_completion async_client_chat import_AsyncClient AsyncClient
       false messages model temperature max_tokens).2 = true.
Proof. by intros -> ->. Qed.

(** When the set-up of the asynchronous client fails, the completion fails
    with a [ProviderError], the backend is not called and the client stays
    unset, so that the next call tries again.  A failing constructor is
    reported under both prefixes, a failing import under the outer one
    only. *)
Theorem async_client_set_up_failure
    (async_client_chat : ChatRequest → result pyval)
    (import_AsyncClient AsyncClient : result unit)
    (messages : list Message) (model : string) (temperature : pyval)
    (max_tokens : option Z) (e : exn) :
  (import_AsyncClient = Raise e
   ∨ import_AsyncClient = Ok () ∧ AsyncClient = Raise e) →
  _aget_chat_completion async_client_chat import_AsyncClient AsyncClient
    false messages model temperature max_tokens
  = (Raise (Exn ProviderError
              ("Ollama async completion failed: "
               +:+ (if import_AsyncClient is Ok _
                    then "Failed to initialize async OpenAI client: " +:+ exn_msg e
                    else exn_msg e))),
     false).
Proof. by intros [-> | [-> ->]]. Qed.

(** Whatever the asynchronous completion raises is a [ProviderError]. *)
Theorem async_chat_raises_provider_error
    (async_client_chat : ChatRequest → result pyval)
    (import_AsyncClient AsyncClient : result unit) (async_client : bool)
    (messages : list Message) (model : string) (temperature : pyval)
    (max_tokens : option Z) (e : exn) :
  (_aget_chat_completion async_client_chat import_AsyncClient AsyncClient
     async_client messages model temperature max_tokens).1 = Raise e →
  exn_class e = ProviderError.
Proof.
  unfold _aget_chat_completion.
  destruct (_ensure_async_client _ _ _) as [ready|e']; simpl.
  - apply reraise_class.
  - by intros [= <-].
Qed.

(** The asynchronous completion needs more of the response than the
    synchronous one: on a reply that [_response_to_dict] cannot convert (no
    [created_at], an invocation without id, a reply that is a dictionary)
    it fails, where the synchronous completion returns the content. *)
Theorem async_chat_needs_convertible_response
    (client_chat async_client_chat : ChatRequest → result pyval)
    (import_AsyncClient AsyncClient : result unit)
    (messages : list Message) (model : string) (temperature stream : pyval)
    (max_tokens : option Z) (response : pyval) (text : string) (e : exn) :
  client_chat (chat_request messages model temperature stream) = Ok response →
  async_client_chat (achat_request messages model temperature) = Ok response →
  _extract_content response = Ok text →
  _response_to_dict response = Raise e →
  _get_chat_completion client_chat messages model temperature stream
  = Ok {| resp_content := text;
          raw_response := response;
          usage := _extract_usage response;
          tool_calls := None |}
  ∧ _aget_chat_completion async_client_chat import_AsyncClient AsyncClient
      true messages model temperature max_tokens
    = (Raise (Exn ProviderError
                ("Ollama async completion failed: " +:+ exn_msg e)),
       true).
Proof.
  intros Hsync Hasync Htext Hdict. split.
  - unfold _get_chat_completion. rewrite Hsync. simpl. by rewrite Htext.
  - unfold _aget_chat_completion. simpl. rewrite Hasync. simpl.
    rewrite Htext. simpl. by rewrite Hdict.
Qed.

Lemma async_client_set_up_once_witness :
  (_aget_chat_completion (λ _, Ok no_calls_response) (Ok ()) (Ok ())
     false [ mkMessage USER "Say 'Hello, World!'" None ] "llama3.2" (PyInt 0) None).2
  = true.
Proof.
  apply (async_client_set_up_once (λ _, Ok no_calls_response)
           (Ok ()) (Ok ()) (Ok ()) (Ok ())
           [ mkMessage USER "Say 'Hello, World!'" None ] "llama3.2" (PyInt 0) None);
    reflexivity.
Defined.

Lemma async_client_set_up_failure_witness :
  _aget_chat_completion (λ _, Ok no_calls_response) (Ok ())
    (Raise (Exn (OtherError "ValueError") "bad host"))
    false [ mkMessage USER "Say 'Hello, World!'" None ] "llama3.2" (PyInt 0) None
  = (Raise (Exn ProviderError
              ("Ollama async completion failed: "
               +:+ "Failed to initialize async OpenAI client: bad host")),
     false).
Proof.
  apply (async_client_set_up_failure (λ _, Ok no_calls_response) (Ok ())
           (Raise (Exn (OtherError "ValueError") "bad host"))
           [ mkMessage USER "Say 'Hello, World!'" None ] "llama3.2" (PyInt 0) None
           (Exn (OtherError "ValueError") "bad host")).
  right. split; reflexivity.
Defined.

Lemma async_chat_raises_provider_error_witness :
  exn_class
    (Exn ProviderError
       "Ollama async completion failed: model 'invalid-model' not found")
  = ProviderError.
Proof.
  apply (async_chat_raises_provider_error model_not_found (Ok ()) (Ok ()) false
           [ mkMessage USER "test" None ] "invalid-model" (PyInt 0) None).
  reflexivity.
Defined.

Lemma async_chat_needs_convertible_response_witness :
  _get_chat_completion (λ _, Ok dict_response)
    [ mkMessage USER "Say 'Hello, World!'" None ] "llama3.2" (PyInt 0) (PyBool false)
  = Ok {| resp_content := "";
          raw_response := dict_response;
          usage := _extract_usage dict_response;
          tool_calls := None |}
  ∧ _aget_chat_completion (λ _, Ok dict_response) (Ok ()) (Ok ())
      true [ mkMessage USER "Say 'Hello, World!'" None ] "llama3.2" (PyInt 0) None
    = (Raise (Exn ProviderError
                ("Ollama async completion failed: "
                 +:+ "'dict' object has no attribute 'message'")),
       true).
Proof.
  apply (async_chat_needs_convertible_response
           (λ _, Ok dict_response) (λ _, Ok dict_response) (Ok ()) (Ok ())
           [ mkMessage USER "Say 'Hello, World!'" None ] "llama3.2"
           (PyInt 0) (PyBool false) None dict_response ""
           (no_attribute dict_response "message"));
    reflexivity.
Defined.

(** ** The synchronous client: [_setup_client] *)

(** [self.config.base_url or "http://localhost:11434"]: the default host
    stands in for a base URL that is [None] or empty. *)
Definition client_host (base_url : option string) : string :=
  match base_url with
  | Some url => if decide (url = "") then "http://localhost:11434" else url
  | None => "http://localhost:11434"
  end.

Section SyncClient.

(** [from ollama import Client] and the constructor call on a host; the
    constructor gives the client handle. *)
Variable import_Client : result unit.
Variable Client : string → result pyval.

Definition _setup_client (base_url : option string) : result pyval :=
  reraise_as_provider_error "Failed to initialize Ollama client: "
    (_ ← import_Client;
     Client (client_host base_url)).

(** The set-up of the synchronous client reports a failing import of the
    client library as a [ProviderError], where the set-up of the
    asynchronous client lets the same failure through as it is. *)
Theorem setup_client_import_failure (base_url : option string)
    (AsyncClient : result unit) (e : exn) :
  import_Client = Raise e →
  _setup_client base_url
  = Raise (Exn ProviderError ("Failed to initialize Ollama client: " +:+ exn_msg e))
  ∧ _asetup_client import_Client AsyncClient = Raise e.
Proof. intros H. unfold _setup_client, _asetup_client. by rewrite H. Qed.

End SyncClient.

Lemma setup_client_import_failure_witness :
  _setup_client (Raise (Exn (OtherError "ModuleNotFoundError")
                          "No module named 'ollama'"))
    (λ _, Ok PyNone) None
  = Raise (Exn ProviderError
             ("Failed to initialize Ollama client: "
              +:+ "No module named 'ollama'"))
  ∧ _asetup_client (Raise (Exn (OtherError "ModuleNotFoundError")
                             "No module named 'ollama'"))
      (Ok ())
    = Raise (Exn (OtherError "ModuleNotFoundError") "No module named 'ollama'").
Proof.
  apply (setup_client_import_failure
           (Raise (Exn (OtherError "ModuleNotFoundError")
                     "No module named 'ollama'"))
           (λ _, Ok PyNone) None (Ok ())
           (Exn (OtherError "ModuleNotFoundError") "No module named 'ollama'")).
  reflexivity.
Defined.

(** ** When the extractions raise, and when they give nothing *)

(** Content extraction raises exactly when the response has a message with
    a content that is not a string; on every other response it returns. *)
Theorem extract_content_raises_iff (response : pyval) :
  (∃ e, _extract_content response = Raise e)
  ↔ ∃ message text,
      attr_of response "message" = Some message
      ∧ attr_of message "content" = Some text
      ∧ ∀ s, text ≠ PyStr s.
Proof.
  unfold _extract_content, hasattr, getattr.
  destruct (attr_of response "message") as [message|] eqn:Hm; simpl.
  - destruct (attr_of message "content") as [text|] eqn:Hc; simpl.
    + split.
      * intros [e He]. exists message, text. split_and!; try done.
        intros s ->. done.
      * intros (m & t & [= <-] & Ht & Hns). rewrite Hc in Ht.
        injection Ht as <-. unfold call_strip.
        destruct text; try (destruct (attr_of _ "strip"); by eexists).
        by destruct (Hns s).
    + split; [by intros [e He]|]. intros (m & t & [= <-] & Ht & _).
      by rewrite Hc in Ht.
  - split; [by intros [e He]|]. by intros (m & t & Hm' & _).
Qed.

Section ToolCallsNone.

Variable json_dumps : pyval → result string.
Variable json_dumps_indent2 : pyval → result string.
Variable debug : bool.

(** Tool-call extraction returns [None] exactly when the response has no
    message, the message has no [tool_calls] attribute, or the reported
    invocations are an empty sequence. *)
Theorem extract_tool_calls_none_iff (response : pyval) :
  _extract_tool_calls json_dumps json_dumps_indent2 debug response = Ok None
  ↔ attr_of response "message" = None
    ∨ (∃ message, attr_of response "message" = Some message
                  ∧ attr_of message "tool_calls" = None)
    ∨ reported_tool_calls response = Ok [].
Proof.
  split.
  - intros H.
    destruct (attr_of response "message") as [message|] eqn:Hm; [|by left].
    right.
    destruct (attr_of message "tool_calls") as [raw|] eqn:Ht;
      [|left; by exists message].
    right. unfold reported_tool_calls, getattr. rewrite Hm. simpl. rewrite Ht. simpl.
    destruct (iterate raw) as [pending|e] eqn:Hit.
    + assert (reported_tool_calls response = Ok pending) as Hrep.
      { unfold reported_tool_calls, getattr. rewrite Hm. simpl. by rewrite Ht. }
      rewrite (extract_tool_calls_reported _ _ _ _ _ Hrep) in H. bind_inv H.
      destruct a; [|done].
      destruct (extract_loop_spec _ _ _ _ _ _ Ha) as (new & Hnew & Hlen & _).
      destruct new; [|done]. by destruct pending.
    + unfold _extract_tool_calls, hasattr, getattr in H. rewrite Hm in H.
      simpl in H. rewrite Ht in H. simpl in H. by rewrite Hit in H.
  - intros [Hm | [(message & Hm & Ht) | Hrep]].
    + apply extract_tool_calls_absent. by left.
    + apply extract_tool_calls_absent. right. by exists message.
    + by apply extract_tool_calls_none_reported.
Qed.

End ToolCallsNone.


(** A string content is extracted as it is exactly when it neither starts
    nor ends with white space. *)
Theorem extract_content_verbatim_iff (response message : pyval) (s : string) :
  attr_of response "message" = Some message →
  attr_of message "content" = Some (PyStr s) →
  (_extract_content response = Ok s
   ↔ starts_with_space s = false ∧ ends_with_space s = false).
Proof.
  intros Hm Hc.
  assert (_extract_content response = Ok (strip s)) as ->.
  { unfold _extract_content, hasattr, getattr. rewrite Hm. simpl. by rewrite Hc. }
  rewrite <- strip_fixed_iff. split; [by intros [= ->] | by intros ->].
Qed.

Lemma extract_content_verbatim_iff_witness :
  _extract_content no_calls_response = Ok "Hello, World!".
Proof.
  apply (extract_content_verbatim_iff no_calls_response
           (PyObj "Message"
              [ ("role", PyStr "assistant");
                ("content", PyStr "Hello, World!");
                ("tool_calls", PyNone) ])
           "Hello, World!"); try reflexivity.
  split; reflexivity.
Defined.
